(** * IDArling / IDAConnect: event capture and session synchronisation

    A shallow embedding of [idarling/core/hooks.py] (the host notification
    adapter and the differencing engine) and of [idaconnect/core/core.py]
    (the session state manager), followed by the properties proved about
    them.

    Conventions of the embedding:
    - Python integers are [Z]; Python [str]/[bytes] are [string]; a value
      that may be [None] is an [option].
    - Everything read from the host application (IDA) is a field of the
      record [Host]: the embedding never invents what the host answers.
    - A handler returns what it returns in Python together with the
      packets it handed to [self._plugin.network.send_packet], in order.
    - The handlers contain no [try]/[except]: a host query that raises is
      outside the embedding, which covers the runs in which every query
      answers.  What [load_state] can raise on its own inputs (a
      malformed server entry, a path that is no string, [os.remove]
      failing) is modelled. *)

From Stdlib Require Import ZArith List Ascii String Bool Lia.
From Stdlib Require Strings.Byte.
From Stdlib Require Import DecimalString DecimalPos DecimalZ.
From stdpp Require Import base decidable option numbers list strings gmap.

Open Scope Z_scope.
Open Scope string_scope.
Open Scope list_scope.

(** ** Host objects handed to the handlers *)

Record insn_t := { insn_ea : Z }.

(** [func_t] and the [range_t] of a function tail expose the same two
    attributes to the handlers. *)
Record func_t := { start_ea : Z; end_ea : Z }.

Record struc_t := { struc_id : Z }.

Record member_t := {
  member_id : Z;
  soff : Z;
  eoff : Z;
  member_flag : Z;
  unimem : bool;
}.

Record segment_t := {
  seg_start_ea : Z;
  seg_end_ea : Z;
  orgbase : Z;
  align : Z;
  comb : Z;
  perm : Z;
  bitness : Z;
  seg_flags : Z;
}.

Record refinfo_t := { ri_target : Z; ri_base : Z; ri_tdelta : Z; ri_flags : Z }.

Record opinfo_t := { ri : refinfo_t; ec_serial : Z; oi_tid : Z; oi_strtype : Z }.

(** ** Type library slots

    [local_types_changed] appends, per ordinal, either [None] or the tuple
    [(ordinal, type_serialized[0], type_serialized[1], type_name)]. *)

Abbreviation local_type := (nat * string * string * option string)%type.

Abbreviation slot := (option local_type).

(** ** Decompiler caches, as the [_get_user_*] helpers build them *)

Record vdloc := { atype : Z; reg1 : Z; reg2 : Z; stkoff : Z; vd_ea : Z }.

Record lvar_locator := { location : vdloc; defea : Z }.

Abbreviation tinfo_triple := (option string * option string * option string)%type.

Record lvar_saved_info := {
  si_ll : lvar_locator;
  si_name : string;
  si_type : tinfo_triple;
  si_cmt : string;
  si_flags : Z;
}.

(** The dictionary built by [_get_user_lvar_settings] when the host has
    settings for the function: its keys are fixed, except ["sizes"], which
    is present only when the host object has that attribute. *)
Record lvar_settings := {
  lvvec : list lvar_saved_info;
  sizes : option (list Z);
  lmaps : list (lvar_locator * lvar_locator);
  stkoff_delta : Z;
  ulv_flags : Z;
}.

Record operand_locator := { ol_ea : Z; ol_opnum : Z }.

Record number_format := {
  nf_flags : Z;
  nf_opnum : Z;
  nf_props : Z;
  nf_serial : Z;
  nf_org_nbytes : Z;
  nf_type_name : string;
}.

Abbreviation labels_t := (list (Z * string)).
Abbreviation cmts_t := (list ((Z * Z) * string)).
Abbreviation iflags_t := (list ((Z * Z) * Z)).
Abbreviation numforms_t := (list (operand_locator * number_format)).

(** [_get_user_lvar_settings] returns the empty dictionary ([None] here)
    when the host has no settings. *)
Abbreviation lvar_settings_t := (option lvar_settings).

(** A cache attribute of [HexRaysHooks]: [__init__] binds each of them to
    the empty dictionary [{}]; afterwards they hold what a getter returned.
    In Python a list never equals a dictionary. *)
Inductive cache (A : Type) : Type :=
  | empty_dict
  | cached (v : A).
Arguments empty_dict {A}.
Arguments cached {A} v.

#[global] Instance vdloc_eq_dec : EqDecision vdloc.
Proof. solve_decision. Defined.
#[global] Instance lvar_locator_eq_dec : EqDecision lvar_locator.
Proof. solve_decision. Defined.
#[global] Instance lvar_saved_info_eq_dec : EqDecision lvar_saved_info.
Proof. solve_decision. Defined.
#[global] Instance lvar_settings_eq_dec : EqDecision lvar_settings.
Proof. solve_decision. Defined.
#[global] Instance operand_locator_eq_dec : EqDecision operand_locator.
Proof. solve_decision. Defined.
#[global] Instance number_format_eq_dec : EqDecision number_format.
Proof. solve_decision. Defined.
#[global] Instance cache_eq_dec {A} `{EqDecision A} : EqDecision (cache A).
Proof. solve_decision. Defined.

(** ** Events

    One constructor per event class instantiated in [hooks.py]; the
    arguments are the constructor arguments, in order. *)

Inductive extra_val :=
  | XInt (z : Z)
  | XStr (s : string)
  | XStrs (l : list string).

Inductive event :=
  | MakeCodeEvent (ea : Z)
  | MakeDataEvent (ea flags size tid : Z)
  | RenamedEvent (ea : Z) (new_name : string) (local_name : bool)
  | FuncAddedEvent (start_ea end_ea : Z)
  | DeletingFuncEvent (start_ea : Z)
  | SetFuncStartEvent (start_ea new_start : Z)
  | SetFuncEndEvent (start_ea new_end : Z)
  | FuncTailAppendedEvent (start_ea_func start_ea_tail end_ea_tail : Z)
  | FuncTailDeletedEvent (start_ea_func tail_ea : Z)
  | TailOwnerChangedEvent (tail_ea owner_func : Z)
  | CmtChangedEvent (ea : Z) (cmt : string) (rptble : bool)
  | RangeCmtChangedEvent (kind : Z) (a : func_t) (cmt : string) (rptble : bool)
  | ExtraCmtChangedEvent (ea line_idx : Z) (cmt : string)
  | TiChangedEvent (ea : Z) (py_type : option (string * string))
  | LocalTypesChangedEvent (local_types : list slot)
  | OpTypeChangedEvent (ea n : Z) (op : string) (extra : gmap string extra_val)
  | EnumCreatedEvent (enum : Z) (name : string)
  | EnumDeletedEvent (ename : string)
  | EnumRenamedEvent (oldname newname : string) (is_enum : bool)
  | EnumBfChangedEvent (ename : string) (bf_flag : Z)
  | EnumCmtChangedEvent (emname : string) (cmt : option string) (rptble : bool)
  | EnumMemberCreatedEvent (ename name : string) (value bmask : Z)
  | EnumMemberDeletedEvent (ename : string) (value serial bmask : Z)
  | StrucCreatedEvent (struc : Z) (name : string) (is_union : bool)
  | StrucDeletedEvent (sname : string)
  | StrucRenamedEvent (oldname newname : string)
  | StrucMemberCreatedEvent (sname fieldname : string) (offset flag nbytes : Z)
      (extra : gmap string extra_val)
  | StrucMemberDeletedEvent (sname : string) (offset : Z)
  | StrucMemberRenamedEvent (sname : string) (offset : Z) (newname : string)
  | StrucCmtChangedEvent (sname smname : string) (cmt : option string) (rptble : bool)
  | StrucMemberChangedEvent (sname : string) (soff eoff flag : Z)
      (extra : gmap string extra_val)
  | ExpandingStrucEvent (sname : string) (offset delta : Z)
  | SegmAddedEvent (name class : string)
      (start_ea end_ea orgbase align comb perm bitness flags : Z)
  | SegmDeletedEvent (ea : Z)
  | SegmStartChangedEvent (newstart ea : Z)
  | SegmEndChangedEvent (newend ea : Z)
  | SegmNameChangedEvent (ea : Z) (name : string)
  | SegmClassChangedEvent (ea : Z) (sclass : string)
  | SegmAttrsUpdatedEvent (ea perm bitness : Z)
  | BytePatchedEvent (ea value : Z)
  | UndefinedEvent (ea : Z)
  | UserLabelsEvent (ea : Z) (labels : labels_t)
  | UserCmtsEvent (ea : Z) (cmts : cmts_t)
  | UserIflagsEvent (ea : Z) (iflags : iflags_t)
  | UserLvarSettingsEvent (ea : Z) (lvar_settings : lvar_settings_t)
  | UserNumformsEvent (ea : Z) (numforms : numforms_t).

(** ** The host query surface

    Every [ida_*] function the handlers call, as a total function of its
    arguments (the handlers treat them as synchronous reads), and the
    constants the handlers test flags against.  [Event_decode] and
    [Event_decode_bytes] are the static helpers of [events.py]. *)

(** The Python object [f] that [user_iflags_second] hands back, as
    [read_type_sign] sees it: the four bytes stored at its address
    [id(f)], lowest address first. *)
Record iflag_object := {
  byte0 : Byte.byte;
  byte1 : Byte.byte;
  byte2 : Byte.byte;
  byte3 : Byte.byte;
}.

Record lvar_saved_info_t := {
  lv_ll : lvar_locator;
  lv_name : string;
  lv_type : option (string * string * string);
  lv_cmt : string;
  lv_flags : Z;
}.

Record lvar_uservec_t := {
  uv_lvvec : list lvar_saved_info_t;
  uv_sizes : option (list Z);
  uv_lmaps : list (lvar_locator * lvar_locator);
  uv_stkoff_delta : Z;
  uv_ulv_flags : Z;
}.

Record Host := {
  (* ida_bytes *)
  get_cmt : Z → bool → option string;
  get_full_flags : Z → Z;
  get_enum_id : Z → Z → Z;
  get_stroff_path : Z → Z → list Z * Z;
  get_wide_byte : Z → Z;
  MS_0TYPE : Z;
  MS_1TYPE : Z;
  hex_flag : Z;
  dec_flag : Z;
  char_flag : Z;
  bin_flag : Z;
  oct_flag : Z;
  enum_flag : Z;
  stroff_flag : Z;
  stkvar_flag : Z;
  off_flag : Z;
  stru_flag : Z;
  strlit_flag : Z;
  (* ida_typeinf *)
  idc_get_type_raw : Z → option (string * string);
  get_ordinal_qty : nat;
  idc_get_local_type_raw : nat → option (string * string);
  get_numbered_type_name : nat → option string;
  tinfo_reserialize : string → string → string * string;
  (* ida_enum *)
  get_enum_idx : Z → Z;
  get_enum_name : Z → string;
  get_enum_member_name : Z → string;
  is_bf : Z → bool;
  get_enum_cmt : Z → bool → option string;
  get_enum_member_value : Z → Z;
  get_enum_member_bmask : Z → Z;
  get_enum_member_serial : Z → Z;
  (* ida_struct *)
  get_struc_name : Z → string;
  get_member_name : Z → string;
  is_union : Z → bool;
  retrieve_member_info : member_t → option opinfo_t;
  get_struc_cmt : Z → bool → option string;
  (* ida_segment *)
  get_segm_name : segment_t → string;
  get_segm_class : segment_t → string;
  (* ida_idp: what the base class handler returns *)
  IDP_Hooks_ev_undefine : Z → Z;
  IDP_Hooks_ev_adjust_argloc : list Z → Z;
  (* ida_kernwin, ida_funcs, ida_idaapi *)
  get_screen_ea : Z;
  get_func : Z → option func_t;
  BADADDR : Z;
  (* ida_hexrays *)
  init_hexrays_plugin : bool;
  hxe_func_printed : Z;
  restore_user_labels : Z → option (list (Z * string));
  restore_user_cmts : Z → option (list ((Z * Z) * string));
  restore_user_iflags : Z → option (list ((Z * Z) * iflag_object));
  restore_user_lvar_settings : Z → option lvar_uservec_t;
  restore_user_numforms : Z → option (list (operand_locator * number_format));
  (* events.py *)
  Event_decode : string → string;
  Event_decode_bytes : string → string;
}.

(** ** class IDBHooks *)

Record IDBHooks := { last_local_type : option (list slot) }.

(** What a handler hands back: the value it returns ([None] for a bare
    [return]) and the events passed to [_send_event], oldest first. *)
Record outcome (S : Type) := Outcome {
  returned : option Z;
  sent : list event;
  self_after : S;
}.
Arguments Outcome {S} returned sent self_after.
Arguments returned {S} o.
Arguments sent {S} o.
Arguments self_after {S} o.

Section IDBHooks_handlers.
Context (h : Host).

Definition make_code (insn : insn_t) : list event * Z :=
  ([MakeCodeEvent (insn_ea insn)], 0).

Definition make_data (ea flags tid size : Z) : list event * Z :=
  ([MakeDataEvent ea flags size tid], 0).

Definition renamed (ea : Z) (new_name : string) (local_name : bool)
  : list event * Z :=
  ([RenamedEvent ea new_name local_name], 0).

Definition func_added (func : func_t) : list event * Z :=
  ([FuncAddedEvent (start_ea func) (end_ea func)], 0).

Definition deleting_func (func : func_t) : list event * Z :=
  ([DeletingFuncEvent (start_ea func)], 0).

Definition set_func_start (func : func_t) (new_start : Z) : list event * Z :=
  ([SetFuncStartEvent (start_ea func) new_start], 0).

Definition set_func_end (func : func_t) (new_end : Z) : list event * Z :=
  ([SetFuncEndEvent (start_ea func) new_end], 0).

Definition func_tail_appended (func tail : func_t) : list event * Z :=
  ([FuncTailAppendedEvent (start_ea func) (start_ea tail) (end_ea tail)], 0).

Definition func_tail_deleted (func : func_t) (tail_ea : Z) : list event * Z :=
  ([FuncTailDeletedEvent (start_ea func) tail_ea], 0).

Definition tail_owner_changed (tail : func_t) (owner_func old_owner : Z)
  : list event * Z :=
  ([TailOwnerChangedEvent (start_ea tail) owner_func], 0).

(** [cmt = "" if not cmt else cmt]: [None] and the empty string are the
    falsy answers of [get_cmt]. *)
Definition cmt_changed (ea : Z) (repeatable_cmt : bool) : list event * Z :=
  let cmt := get_cmt h ea repeatable_cmt in
  let cmt := match cmt with
             | None => ""
             | Some c => if bool_decide (c = "") then "" else c
             end in
  ([CmtChangedEvent ea cmt repeatable_cmt], 0).

Definition range_cmt_changed (kind : Z) (a : func_t) (cmt : string)
    (repeatable : bool) : list event * Z :=
  ([RangeCmtChangedEvent kind a cmt repeatable], 0).

Definition extra_cmt_changed (ea line_idx : Z) (cmt : string)
  : list event * Z :=
  ([ExtraCmtChangedEvent ea line_idx cmt], 0).

Definition ti_changed (ea : Z) (type fname : string) : list event * Z :=
  let type := idc_get_type_raw h ea in
  ([TiChangedEvent ea type], 0).

(** The enumeration loop of [local_types_changed]: ordinals
    [range(1, get_ordinal_qty(None))], one slot each. *)
Definition collect_local_types : list slot :=
  map (λ ordinal : nat,
         match idc_get_local_type_raw h ordinal with
         | Some (type_str, fields_str) =>
             let type_name := get_numbered_type_name h ordinal in
             let type_serialized := tinfo_reserialize h type_str fields_str in
             Some (ordinal, type_serialized.1, type_serialized.2, type_name)
         | None => None
         end)
      (seq 1 (get_ordinal_qty h - 1)%nat).

(** [types[i]]: every use below is at an index inside the list. *)
Definition getitem (types : list slot) (i : nat) : slot := types !!! i.

(** One iteration of the loop of [differ_local_types]: what it appends to
    [ret_types] at index [i]. *)
Definition differ_step (types1 types2 : list slot) (i : nat)
  : list (nat * slot * slot) :=
  if bool_decide (length types1 ≤ i)%nat then
    [(i, None, getitem types2 i)]
  else if bool_decide (length types2 ≤ i)%nat then
    [(i, getitem types1 i, None)]
  else if bool_decide (getitem types1 i ≠ getitem types2 i) then
    [(i, getitem types1 i, getitem types2 i)]
  else [].

Definition differ_local_types (types1 types2 : list slot)
  : list (nat * slot * slot) :=
  flat_map (differ_step types1 types2)
           (seq 0 (max (length types1) (length types2))).

(** The part of [local_types_changed] after the enumeration loop. *)
Definition compare_local_types (self : IDBHooks) (local_types : list slot)
  : outcome IDBHooks :=
  match last_local_type self with
  | None =>
      let self := {| last_local_type := Some local_types |} in
      let sent_types := local_types in
      Outcome (Some 0) [LocalTypesChangedEvent sent_types] self
  | Some last =>
      let diff := differ_local_types last local_types in
      let self := {| last_local_type := Some local_types |} in
      if bool_decide (length diff = 1%nat)
         && bool_decide ((diff !!! 0%nat).2 = None) then
        Outcome (Some 0) [] self
      else if bool_decide (length diff = 0%nat) then
        Outcome (Some 0) [] self
      else
        let sent_types := map (λ t : nat * slot * slot, t.2) diff in
        Outcome (Some 0) [LocalTypesChangedEvent sent_types] self
  end.

Definition local_types_changed (self : IDBHooks) : outcome IDBHooks :=
  compare_local_types self collect_local_types.

Definition gather_enum_info (ea n : Z) : Z * Z :=
  let id := get_enum_id h ea n in
  let serial := get_enum_idx h id in
  (id, serial).

(** The [if]/[elif] chain of [op_type_changed]: the operand kind and the
    [extra] dictionary of the first branch whose test holds, [None] for
    the final [else]. *)
Definition classify_op (ea n : Z) : option (string * gmap string extra_val) :=
  let extra : gmap string extra_val := ∅ in
  let mask := if bool_decide (n = 0) then MS_0TYPE h else MS_1TYPE h in
  let flags := Z.land (get_full_flags h ea) mask in
  let is_flag (type : Z) := bool_decide (flags = Z.land mask type) in
  if is_flag (hex_flag h) then Some ("hex", extra)
  else if is_flag (dec_flag h) then Some ("dec", extra)
  else if is_flag (char_flag h) then Some ("chr", extra)
  else if is_flag (bin_flag h) then Some ("bin", extra)
  else if is_flag (oct_flag h) then Some ("oct", extra)
  else if is_flag (enum_flag h) then
    let '(id, serial) := gather_enum_info ea n in
    let ename := get_enum_name h id in
    let extra := <["ename" := XStr (Event_decode h ename)]> extra in
    let extra := <["serial" := XInt serial]> extra in
    Some ("enum", extra)
  else if is_flag (Z.land flags (stroff_flag h)) then
    let '(path, delta) := get_stroff_path h ea n in
    let spath := map (λ tid, Event_decode h (get_struc_name h tid)) path in
    let extra := <["delta" := XInt delta]> extra in
    let extra := <["spath" := XStrs spath]> extra in
    Some ("struct", extra)
  else if is_flag (stkvar_flag h) then Some ("stkvar", extra)
  else None.

Definition op_type_changed (ea n : Z) : list event * Z :=
  match classify_op ea n with
  | Some (op, extra) => ([OpTypeChangedEvent ea n op extra], 0)
  | None => ([], 0)
  end.

Definition enum_created (enum : Z) : list event * Z :=
  let name := get_enum_name h enum in
  ([EnumCreatedEvent enum name], 0).

Definition deleting_enum (id : Z) : list event * Z :=
  ([EnumDeletedEvent (get_enum_name h id)], 0).

Definition renaming_enum (id : Z) (is_enum : bool) (newname : string)
  : list event * Z :=
  let oldname :=
    if is_enum then get_enum_name h id else get_enum_member_name h id in
  ([EnumRenamedEvent oldname newname is_enum], 0).

Definition enum_bf_changed (id : Z) : list event * Z :=
  let bf_flag := if is_bf h id then 1 else 0 in
  let ename := get_enum_name h id in
  ([EnumBfChangedEvent ename bf_flag], 0).

Definition enum_cmt_changed (tid : Z) (repeatable_cmt : bool)
  : list event * Z :=
  let cmt := get_enum_cmt h tid repeatable_cmt in
  let emname := get_enum_name h tid in
  ([EnumCmtChangedEvent emname cmt repeatable_cmt], 0).

Definition enum_member_created (id cid : Z) : list event * Z :=
  let ename := get_enum_name h id in
  let name := get_enum_member_name h cid in
  let value := get_enum_member_value h cid in
  let bmask := get_enum_member_bmask h cid in
  ([EnumMemberCreatedEvent ename name value bmask], 0).

Definition deleting_enum_member (id cid : Z) : list event * Z :=
  let ename := get_enum_name h id in
  let value := get_enum_member_value h cid in
  let serial := get_enum_member_serial h cid in
  let bmask := get_enum_member_bmask h cid in
  ([EnumMemberDeletedEvent ename value serial bmask], 0).

Definition struc_created (tid : Z) : list event * Z :=
  let name := get_struc_name h tid in
  let is_union := is_union h tid in
  ([StrucCreatedEvent tid name is_union], 0).

Definition deleting_struc (sptr : struc_t) : list event * Z :=
  let sname := get_struc_name h (struc_id sptr) in
  ([StrucDeletedEvent sname], 0).

Definition renaming_struc (id : Z) (oldname newname : string)
  : list event * Z :=
  ([StrucRenamedEvent oldname newname], 0).

(** Python truthiness of an integer, as in [if flag & ida_bytes.off_flag()]. *)
Definition truthy_int (z : Z) : bool := negb (bool_decide (z = 0)).

(** The dictionary [extra] built by [struc_member_created] and
    [struc_member_changed] when [retrieve_member_info] answers: [None] when
    none of the three flag tests holds (nothing is sent then). *)
Definition member_extra (flag : Z) (mt : opinfo_t)
  : option (gmap string extra_val) :=
  let extra : gmap string extra_val := ∅ in
  if truthy_int (Z.land flag (off_flag h)) then
    let extra := <["target" := XInt (ri_target (ri mt))]> extra in
    let extra := <["base" := XInt (ri_base (ri mt))]> extra in
    let extra := <["tdelta" := XInt (ri_tdelta (ri mt))]> extra in
    let extra := <["flags" := XInt (ri_flags (ri mt))]> extra in
    Some extra
  else if truthy_int (Z.land flag (enum_flag h)) then
    let extra := <["serial" := XInt (ec_serial mt)]> extra in
    Some extra
  else if truthy_int (Z.land flag (stru_flag h)) then
    let extra := <["id" := XInt (oi_tid mt)]> extra in
    let extra :=
      if truthy_int (Z.land flag (strlit_flag h))
      then <["strtype" := XInt (oi_strtype mt)]> extra else extra in
    Some extra
  else None.

Definition struc_member_created (sptr : struc_t) (mptr : member_t)
  : list event * Z :=
  let extra : gmap string extra_val := ∅ in
  let sname := get_struc_name h (struc_id sptr) in
  let fieldname := get_member_name h (member_id mptr) in
  let offset := if unimem mptr then 0 else soff mptr in
  let flag := member_flag mptr in
  let nbytes := if unimem mptr then eoff mptr else eoff mptr - soff mptr in
  let is_not_data := retrieve_member_info h mptr in
  match is_not_data with
  | Some mt =>
      match member_extra flag mt with
      | Some extra =>
          ([StrucMemberCreatedEvent sname fieldname offset flag nbytes extra], 0)
      | None => ([], 0)
      end
  | None =>
      ([StrucMemberCreatedEvent sname fieldname offset flag nbytes extra], 0)
  end.

Definition struc_member_deleted (sptr : struc_t) (off1 off2 : Z)
  : list event * Z :=
  let sname := get_struc_name h (struc_id sptr) in
  ([StrucMemberDeletedEvent sname off2], 0).

Definition renaming_struc_member (sptr : struc_t) (mptr : member_t)
    (newname : string) : list event * Z :=
  let sname := get_struc_name h (struc_id sptr) in
  let offset := soff mptr in
  ([StrucMemberRenamedEvent sname offset newname], 0).

(** [fullname.split(".", 1)] when ["." in fullname]. *)
Fixpoint split_first_dot (s : string) : option (string * string) :=
  match s with
  | EmptyString => None
  | String c rest =>
      if Ascii.eqb c "."%char then Some (EmptyString, rest)
      else match split_first_dot rest with
           | Some (a, b) => Some (String c a, b)
           | None => None
           end
  end.

Definition struc_cmt_changed (id : Z) (repeatable_cmt : bool)
  : list event * Z :=
  let fullname := get_struc_name h id in
  let '(sname, smname) :=
    match split_first_dot fullname with
    | Some (sname, smname) => (sname, smname)
    | None => (fullname, "")
    end in
  let cmt := get_struc_cmt h id repeatable_cmt in
  ([StrucCmtChangedEvent sname smname cmt repeatable_cmt], 0).

Definition struc_member_changed (sptr : struc_t) (mptr : member_t)
  : list event * Z :=
  let extra : gmap string extra_val := ∅ in
  let sname := get_struc_name h (struc_id sptr) in
  let soff := if unimem mptr then 0 else soff mptr in
  let flag := member_flag mptr in
  let is_not_data := retrieve_member_info h mptr in
  match is_not_data with
  | Some mt =>
      match member_extra flag mt with
      | Some extra =>
          ([StrucMemberChangedEvent sname soff (eoff mptr) flag extra], 0)
      | None => ([], 0)
      end
  | None => ([StrucMemberChangedEvent sname soff (eoff mptr) flag extra], 0)
  end.

Definition expanding_struc (sptr : struc_t) (offset delta : Z)
  : list event * Z :=
  let sname := get_struc_name h (struc_id sptr) in
  ([ExpandingStrucEvent sname offset delta], 0).

Definition segm_added (s : segment_t) : list event * Z :=
  ([SegmAddedEvent (get_segm_name h s) (get_segm_class h s)
      (seg_start_ea s) (seg_end_ea s) (orgbase s) (align s) (comb s)
      (perm s) (bitness s) (seg_flags s)], 0).

Definition segm_deleted (start_ea end_ea : Z) : list event * Z :=
  ([SegmDeletedEvent start_ea], 0).

Definition segm_start_changed (s : segment_t) (oldstart : Z)
  : list event * Z :=
  ([SegmStartChangedEvent (seg_start_ea s) oldstart], 0).

Definition segm_end_changed (s : segment_t) (oldend : Z) : list event * Z :=
  ([SegmEndChangedEvent (seg_end_ea s) (seg_start_ea s)], 0).

Definition segm_name_changed (s : segment_t) (name : string)
  : list event * Z :=
  ([SegmNameChangedEvent (seg_start_ea s) name], 0).

Definition segm_class_changed (s : segment_t) (sclass : string)
  : list event * Z :=
  ([SegmClassChangedEvent (seg_start_ea s) sclass], 0).

Definition segm_attrs_updated (s : segment_t) : list event * Z :=
  ([SegmAttrsUpdatedEvent (seg_start_ea s) (perm s) (bitness s)], 0).

Definition byte_patched (ea old_value : Z) : list event * Z :=
  ([BytePatchedEvent ea (get_wide_byte h ea)], 0).

(** ** class IDPHooks *)

Definition ev_undefine (ea : Z) : list event * Z :=
  ([UndefinedEvent ea], IDP_Hooks_ev_undefine h ea).

Definition ev_adjust_argloc (args : list Z) : list event * Z :=
  ([], IDP_Hooks_ev_adjust_argloc h args).

(** ** class HexRaysHooks *)

Definition _get_user_labels (ea : Z) : labels_t :=
  let user_labels := default [] (restore_user_labels h ea) in
  map (λ it : Z * string, (it.1, Event_decode h it.2)) user_labels.

Definition _get_user_cmts (ea : Z) : cmts_t :=
  let user_cmts := default [] (restore_user_cmts h ea) in
  map (λ it : (Z * Z) * string, (it.1, Event_decode h it.2)) user_cmts.

(** [read_type_sign], the helper nested in [_get_user_iflags]:
    [struct.unpack("I", ctypes.string_at(id(obj), 4))[0]], the unsigned
    32-bit word at the object's address, in the byte order of the x86
    machines the host runs on (least significant byte first). *)
Definition read_type_sign (obj : iflag_object) : Z :=
  Z.of_N (Byte.to_N (byte0 obj))
  + 256 * Z.of_N (Byte.to_N (byte1 obj))
  + 65536 * Z.of_N (Byte.to_N (byte2 obj))
  + 16777216 * Z.of_N (Byte.to_N (byte3 obj)).

Definition _get_user_iflags (ea : Z) : iflags_t :=
  let user_iflags := default [] (restore_user_iflags h ea) in
  map (λ it : (Z * Z) * iflag_object,
         let cl := it.1 in
         let f := it.2 in
         let f := read_type_sign f in
         (cl, f))
      user_iflags.

Definition _get_vdloc (location : vdloc) : vdloc :=
  {| atype := atype location; reg1 := reg1 location; reg2 := reg2 location;
     stkoff := stkoff location; vd_ea := vd_ea location |}.

Definition _get_lvar_locator (ll : lvar_locator) : lvar_locator :=
  {| location := _get_vdloc (location ll); defea := defea ll |}.

Definition _get_tinfo (type : option (string * string * string))
  : tinfo_triple :=
  match type with
  | None => (None, None, None)
  | Some (type, fields, fldcmts) =>
      (Some (Event_decode_bytes h type), Some (Event_decode_bytes h fields),
       Some (Event_decode_bytes h fldcmts))
  end.

Definition _get_lvar_saved_info (lv : lvar_saved_info_t) : lvar_saved_info :=
  {| si_ll := _get_lvar_locator (lv_ll lv);
     si_name := Event_decode h (lv_name lv);
     si_type := _get_tinfo (lv_type lv);
     si_cmt := Event_decode h (lv_cmt lv);
     si_flags := lv_flags lv |}.

Definition _get_user_lvar_settings (ea : Z) : lvar_settings_t :=
  match restore_user_lvar_settings h ea with
  | Some lvinf =>
      Some {| lvvec := map _get_lvar_saved_info (uv_lvvec lvinf);
              sizes := uv_sizes lvinf;
              lmaps := map (λ it : lvar_locator * lvar_locator,
                              (_get_lvar_locator it.1, _get_lvar_locator it.2))
                           (uv_lmaps lvinf);
              stkoff_delta := uv_stkoff_delta lvinf;
              ulv_flags := uv_ulv_flags lvinf |}
  | None => None
  end.

Definition _get_operand_locator (ol : operand_locator) : operand_locator :=
  {| ol_ea := ol_ea ol; ol_opnum := ol_opnum ol |}.

Definition _get_number_format (nf : number_format) : number_format :=
  {| nf_flags := nf_flags nf; nf_opnum := nf_opnum nf; nf_props := nf_props nf;
     nf_serial := nf_serial nf; nf_org_nbytes := nf_org_nbytes nf;
     nf_type_name := nf_type_name nf |}.

Definition _get_user_numforms (ea : Z) : numforms_t :=
  let user_numforms := default [] (restore_user_numforms h ea) in
  map (λ it : operand_locator * number_format,
         (_get_operand_locator it.1, _get_number_format it.2))
      user_numforms.

End IDBHooks_handlers.

(** Methods that read and write the attributes of [self] and send events
    in between are written in a state monad over [self] and the list of
    events already handed to the network. *)
Definition method (S A : Type) : Type := S * list event → A * (S * list event).

#[global] Instance method_ret {S} : MRet (method S) := λ A x w, (x, w).

#[global] Instance method_bind {S} : MBind (method S) :=
  λ A B f m w, let '(a, w') := m w in f a w'.

Definition get_self {S} : method S S := λ w, (w.1, w).

Definition set_self {S} (s : S) : method S unit := λ w, (tt, (s, w.2)).

(** [Hooks._send_event]. *)
Definition _send_event {S} (e : event) : method S unit :=
  λ w, (tt, (w.1, w.2 ++ [e])).

(** Runs a method on [self] with nothing sent yet. *)
Definition call {S} (m : method S (option Z)) (self : S) : outcome S :=
  let '(r, (self', out)) := m (self, []) in Outcome r out self'.

Record HexRaysHooks := {
  _available : option bool;
  _installed : bool;
  _func_ea : Z;
  _labels : cache labels_t;
  _cmts : cache cmts_t;
  _iflags : cache iflags_t;
  _lvar_settings : lvar_settings_t;
  _numforms : cache numforms_t;
}.

Definition set_available (v : option bool) (s : HexRaysHooks) : HexRaysHooks :=
  {| _available := v; _installed := _installed s; _func_ea := _func_ea s;
     _labels := _labels s; _cmts := _cmts s; _iflags := _iflags s;
     _lvar_settings := _lvar_settings s; _numforms := _numforms s |}.

Definition set_installed (v : bool) (s : HexRaysHooks) : HexRaysHooks :=
  {| _available := _available s; _installed := v; _func_ea := _func_ea s;
     _labels := _labels s; _cmts := _cmts s; _iflags := _iflags s;
     _lvar_settings := _lvar_settings s; _numforms := _numforms s |}.

Definition set_func_ea (v : Z) (s : HexRaysHooks) : HexRaysHooks :=
  {| _available := _available s; _installed := _installed s; _func_ea := v;
     _labels := _labels s; _cmts := _cmts s; _iflags := _iflags s;
     _lvar_settings := _lvar_settings s; _numforms := _numforms s |}.

Definition set_labels (v : cache labels_t) (s : HexRaysHooks) : HexRaysHooks :=
  {| _available := _available s; _installed := _installed s;
     _func_ea := _func_ea s;
     _labels := v; _cmts := _cmts s; _iflags := _iflags s;
     _lvar_settings := _lvar_settings s; _numforms := _numforms s |}.

Definition set_cmts (v : cache cmts_t) (s : HexRaysHooks) : HexRaysHooks :=
  {| _available := _available s; _installed := _installed s;
     _func_ea := _func_ea s;
     _labels := _labels s; _cmts := v; _iflags := _iflags s;
     _lvar_settings := _lvar_settings s; _numforms := _numforms s |}.

Definition set_iflags (v : cache iflags_t) (s : HexRaysHooks) : HexRaysHooks :=
  {| _available := _available s; _installed := _installed s;
     _func_ea := _func_ea s;
     _labels := _labels s; _cmts := _cmts s; _iflags := v;
     _lvar_settings := _lvar_settings s; _numforms := _numforms s |}.

Definition set_lvar_settings (v : lvar_settings_t) (s : HexRaysHooks)
  : HexRaysHooks :=
  {| _available := _available s; _installed := _installed s;
     _func_ea := _func_ea s;
     _labels := _labels s; _cmts := _cmts s; _iflags := _iflags s;
     _lvar_settings := v; _numforms := _numforms s |}.

Definition set_numforms (v : cache numforms_t) (s : HexRaysHooks)
  : HexRaysHooks :=
  {| _available := _available s; _installed := _installed s;
     _func_ea := _func_ea s;
     _labels := _labels s; _cmts := _cmts s; _iflags := _iflags s;
     _lvar_settings := _lvar_settings s; _numforms := v |}.

Section HexRaysHooks_methods.
Context (h : Host).

(** [HexRaysHooks.__init__]. *)
Definition HexRaysHooks_init : HexRaysHooks :=
  {| _available := None; _installed := false; _func_ea := BADADDR h;
     _labels := empty_dict; _cmts := empty_dict; _iflags := empty_dict;
     _lvar_settings := None; _numforms := empty_dict |}.

Definition HexRaysHooks_hook (self : HexRaysHooks) : HexRaysHooks :=
  let self :=
    match _available self with
    | None =>
        if negb (init_hexrays_plugin h) then set_available (Some false) self
        else set_available (Some true) self
    | Some _ => self
    end in
  if bool_decide (_available self = Some true)
  then set_installed true self else self.

Definition HexRaysHooks_unhook (self : HexRaysHooks) : HexRaysHooks :=
  if bool_decide (_available self = Some true)
  then set_installed false self else self.

Definition _send_user_labels (ea : Z) : method HexRaysHooks unit :=
  let labels := _get_user_labels h ea in
  self ← get_self;
  if bool_decide (cached labels ≠ _labels self) then
    _send_event (UserLabelsEvent ea labels);;
    self ← get_self;
    set_self (set_labels (cached labels) self)
  else mret tt.

Definition _send_user_cmts (ea : Z) : method HexRaysHooks unit :=
  let cmts := _get_user_cmts h ea in
  self ← get_self;
  if bool_decide (cached cmts ≠ _cmts self) then
    _send_event (UserCmtsEvent ea cmts);;
    self ← get_self;
    set_self (set_cmts (cached cmts) self)
  else mret tt.

Definition _send_user_iflags (ea : Z) : method HexRaysHooks unit :=
  let iflags := _get_user_iflags h ea in
  self ← get_self;
  if bool_decide (cached iflags ≠ _iflags self) then
    _send_event (UserIflagsEvent ea iflags);;
    self ← get_self;
    set_self (set_iflags (cached iflags) self)
  else mret tt.

Definition _send_user_lvar_settings (ea : Z) : method HexRaysHooks unit :=
  let lvar_settings := _get_user_lvar_settings h ea in
  self ← get_self;
  if bool_decide (lvar_settings ≠ _lvar_settings self) then
    _send_event (UserLvarSettingsEvent ea lvar_settings);;
    self ← get_self;
    set_self (set_lvar_settings lvar_settings self)
  else mret tt.

Definition _send_user_numforms (ea : Z) : method HexRaysHooks unit :=
  let numforms := _get_user_numforms h ea in
  self ← get_self;
  if bool_decide (cached numforms ≠ _numforms self) then
    _send_event (UserNumformsEvent ea numforms);;
    self ← get_self;
    set_self (set_numforms (cached numforms) self)
  else mret tt.

(** The block under [if self._func_ea != func.start_ea]: all five caches
    are rebound to what the host holds for the function now displayed. *)
Definition rebind (func : func_t) (self : HexRaysHooks) : HexRaysHooks :=
  let self := set_func_ea (start_ea func) self in
  let self := set_labels (cached (_get_user_labels h (_func_ea self))) self in
  let self := set_cmts (cached (_get_user_cmts h (_func_ea self))) self in
  let self := set_iflags (cached (_get_user_iflags h (_func_ea self))) self in
  let self :=
    set_lvar_settings (_get_user_lvar_settings h (_func_ea self)) self in
  set_numforms (cached (_get_user_numforms h (_func_ea self))) self.

(** [_hxe_callback]: the result is [None] where the Python code leaves
    through the bare [return]. *)
Definition _hxe_callback (event : Z) : method HexRaysHooks (option Z) :=
  self ← get_self;
  if negb (_installed self) then mret (Some 0)
  else if bool_decide (event = hxe_func_printed h) then
    let ea := get_screen_ea h in
    match get_func h ea with
    | None => mret None
    | Some func =>
        (if bool_decide (_func_ea self ≠ start_ea func)
         then set_self (rebind func self) else mret tt);;
        _send_user_labels (start_ea func);;
        _send_user_cmts (start_ea func);;
        _send_user_iflags (start_ea func);;
        _send_user_lvar_settings (start_ea func);;
        _send_user_numforms (start_ea func);;
        mret (Some 0)
    end
  else mret (Some 0).

End HexRaysHooks_methods.

(** ** The notification entry points

    One constructor per method the host calls on [IDBHooks] and
    [IDPHooks], with the arguments the host passes. *)

Inductive notification :=
  | N_make_code (insn : insn_t)
  | N_make_data (ea flags tid size : Z)
  | N_renamed (ea : Z) (new_name : string) (local_name : bool)
  | N_func_added (func : func_t)
  | N_deleting_func (func : func_t)
  | N_set_func_start (func : func_t) (new_start : Z)
  | N_set_func_end (func : func_t) (new_end : Z)
  | N_func_tail_appended (func tail : func_t)
  | N_func_tail_deleted (func : func_t) (tail_ea : Z)
  | N_tail_owner_changed (tail : func_t) (owner_func old_owner : Z)
  | N_cmt_changed (ea : Z) (repeatable_cmt : bool)
  | N_range_cmt_changed (kind : Z) (a : func_t) (cmt : string) (repeatable : bool)
  | N_extra_cmt_changed (ea line_idx : Z) (cmt : string)
  | N_ti_changed (ea : Z) (type fname : string)
  | N_local_types_changed
  | N_op_type_changed (ea n : Z)
  | N_enum_created (enum : Z)
  | N_deleting_enum (id : Z)
  | N_renaming_enum (id : Z) (is_enum : bool) (newname : string)
  | N_enum_bf_changed (id : Z)
  | N_enum_cmt_changed (tid : Z) (repeatable_cmt : bool)
  | N_enum_member_created (id cid : Z)
  | N_deleting_enum_member (id cid : Z)
  | N_struc_created (tid : Z)
  | N_deleting_struc (sptr : struc_t)
  | N_renaming_struc (id : Z) (oldname newname : string)
  | N_struc_member_created (sptr : struc_t) (mptr : member_t)
  | N_struc_member_deleted (sptr : struc_t) (off1 off2 : Z)
  | N_renaming_struc_member (sptr : struc_t) (mptr : member_t) (newname : string)
  | N_struc_cmt_changed (id : Z) (repeatable_cmt : bool)
  | N_struc_member_changed (sptr : struc_t) (mptr : member_t)
  | N_expanding_struc (sptr : struc_t) (offset delta : Z)
  | N_segm_added (s : segment_t)
  | N_segm_deleted (start_ea end_ea : Z)
  | N_segm_start_changed (s : segment_t) (oldstart : Z)
  | N_segm_end_changed (s : segment_t) (oldend : Z)
  | N_segm_name_changed (s : segment_t) (name : string)
  | N_segm_class_changed (s : segment_t) (sclass : string)
  | N_segm_attrs_updated (s : segment_t)
  | N_byte_patched (ea old_value : Z)
  | N_ev_undefine (ea : Z)
  | N_ev_adjust_argloc (args : list Z).

(** A handler that does not touch [self]. *)
Definition stateless {S} (r : list event * Z) (self : S) : outcome S :=
  Outcome (Some r.2) r.1 self.

(** The status the host reads back after notification [n]: [0] for every
    [IDB_Hooks] method, and the base class's own answer for [ev_undefine]. *)
Definition expected_status (h : Host) (n : notification) : Z :=
  match n with
  | N_ev_undefine ea => IDP_Hooks_ev_undefine h ea
  | N_ev_adjust_argloc args => IDP_Hooks_ev_adjust_argloc h args
  | _ => 0
  end.

Definition notify (h : Host) (n : notification) (self : IDBHooks)
  : outcome IDBHooks :=
  match n with
  | N_make_code insn => stateless (make_code insn) self
  | N_make_data ea flags tid size => stateless (make_data ea flags tid size) self
  | N_renamed ea new_name local_name =>
      stateless (renamed ea new_name local_name) self
  | N_func_added func => stateless (func_added func) self
  | N_deleting_func func => stateless (deleting_func func) self
  | N_set_func_start func new_start =>
      stateless (set_func_start func new_start) self
  | N_set_func_end func new_end => stateless (set_func_end func new_end) self
  | N_func_tail_appended func tail =>
      stateless (func_tail_appended func tail) self
  | N_func_tail_deleted func tail_ea =>
      stateless (func_tail_deleted func tail_ea) self
  | N_tail_owner_changed tail owner_func old_owner =>
      stateless (tail_owner_changed tail owner_func old_owner) self
  | N_cmt_changed ea repeatable_cmt =>
      stateless (cmt_changed h ea repeatable_cmt) self
  | N_range_cmt_changed kind a cmt repeatable =>
      stateless (range_cmt_changed kind a cmt repeatable) self
  | N_extra_cmt_changed ea line_idx cmt =>
      stateless (extra_cmt_changed ea line_idx cmt) self
  | N_ti_changed ea type fname => stateless (ti_changed h ea type fname) self
  | N_local_types_changed => local_types_changed h self
  | N_op_type_changed ea n => stateless (op_type_changed h ea n) self
  | N_enum_created enum => stateless (enum_created h enum) self
  | N_deleting_enum id => stateless (deleting_enum h id) self
  | N_renaming_enum id is_enum newname =>
      stateless (renaming_enum h id is_enum newname) self
  | N_enum_bf_changed id => stateless (enum_bf_changed h id) self
  | N_enum_cmt_changed tid repeatable_cmt =>
      stateless (enum_cmt_changed h tid repeatable_cmt) self
  | N_enum_member_created id cid => stateless (enum_member_created h id cid) self
  | N_deleting_enum_member id cid =>
      stateless (deleting_enum_member h id cid) self
  | N_struc_created tid => stateless (struc_created h tid) self
  | N_deleting_struc sptr => stateless (deleting_struc h sptr) self
  | N_renaming_struc id oldname newname =>
      stateless (renaming_struc id oldname newname) self
  | N_struc_member_created sptr mptr =>
      stateless (struc_member_created h sptr mptr) self
  | N_struc_member_deleted sptr off1 off2 =>
      stateless (struc_member_deleted h sptr off1 off2) self
  | N_renaming_struc_member sptr mptr newname =>
      stateless (renaming_struc_member h sptr mptr newname) self
  | N_struc_cmt_changed id repeatable_cmt =>
      stateless (struc_cmt_changed h id repeatable_cmt) self
  | N_struc_member_changed sptr mptr =>
      stateless (struc_member_changed h sptr mptr) self
  | N_expanding_struc sptr offset delta =>
      stateless (expanding_struc h sptr offset delta) self
  | N_segm_added s => stateless (segm_added h s) self
  | N_segm_deleted start_ea end_ea => stateless (segm_deleted start_ea end_ea) self
  | N_segm_start_changed s oldstart =>
      stateless (segm_start_changed s oldstart) self
  | N_segm_end_changed s oldend => stateless (segm_end_changed s oldend) self
  | N_segm_name_changed s name => stateless (segm_name_changed s name) self
  | N_segm_class_changed s sclass =>
      stateless (segm_class_changed s sclass) self
  | N_segm_attrs_updated s => stateless (segm_attrs_updated s) self
  | N_byte_patched ea old_value => stateless (byte_patched h ea old_value) self
  | N_ev_undefine ea => stateless (ev_undefine h ea) self
  | N_ev_adjust_argloc args => stateless (ev_adjust_argloc h args) self
  end.

(** * core.py: the session state manager *)

(** ** Commands, the state file and the file system *)

Inductive command :=
  | Subscribe (repo branch : string) (tick : Z)
  | Unsubscribe.

(** Values of the JSON document [state.json]. *)
#[warnings="-register-all"]
Inductive json :=
  | JNull
  | JBool (b : bool)
  | JInt (z : Z)
  | JStr (s : string)
  | JList (l : list json).

(** Python truthiness of a decoded JSON value. *)
Definition truthy (v : json) : bool :=
  match v with
  | JNull => false
  | JBool b => b
  | JInt z => negb (bool_decide (z = 0))
  | JStr s => negb (bool_decide (s = ""))
  | JList l => negb (bool_decide (l = []))
  end.

Inductive exn :=
  | TypeError
  | AttributeError
  | OSError (path : string).

(** What [load_state] sees of the disk: the decoded content of
    [state.json] when that file exists, the paths that exist, and among
    them those [os.remove] cannot delete (a directory, a file in use, a
    file the user may not delete). *)
Record filesystem := {
  state_json : option (gmap string json);
  present : gset string;
  locked : gset string;
}.

Definition os_path_exists (fs : filesystem) (p : string) : bool :=
  bool_decide (p ∈ present fs).

Definition os_remove (fs : filesystem) (p : string) : exn + filesystem :=
  if bool_decide (p ∈ present fs) && negb (bool_decide (p ∈ locked fs)) then
    inr {| state_json := state_json fs;
           present := present fs ∖ {[p]};
           locked := locked fs |}
  else inl (OSError p).

(** [str.rfind] of one character: the last index holding [c], or [-1]. *)
Fixpoint rfind_from (c : ascii) (s : string) (i last : Z) : Z :=
  match s with
  | EmptyString => last
  | String c' rest =>
      rfind_from c rest (i + 1) (if Ascii.eqb c' c then i else last)
  end.

Definition rfind (c : ascii) (s : string) : Z := rfind_from c s 0 (-1).

(** [os.path.splitext] ([posixpath]): the extension starts at the last dot
    of the last path component, unless that component consists of leading
    dots only up to there. *)
Definition splitext (p : string) : string * string :=
  let sepIndex := rfind "/"%char p in
  let dotIndex := rfind "."%char p in
  if bool_decide (dotIndex > sepIndex) then
    let filenameIndex := Z.to_nat (sepIndex + 1) in
    let dot := Z.to_nat dotIndex in
    if existsb (λ i, negb (bool_decide (String.get i p = Some "."%char)))
               (seq filenameIndex (dot - filenameIndex)%nat)
    then (String.substring 0 dot p,
          String.substring dot (String.length p - dot)%nat p)
    else (p, "")
  else (p, "").

(** ** class Core *)

Record Core := {
  idb_hooked : bool;
  idp_hooked : bool;
  _hxeHooks : HexRaysHooks;
  _repo : option string;
  _branch : option string;
  _tick : Z;
  ticks : option Z;
  _servers : list (json * json);
  netnode : gmap string (option string);
  sent_packets : list command;
  connect_requests : list (json * json);
}.

Definition with_hooks (idb idp : bool) (hxe : HexRaysHooks) (c : Core) : Core :=
  {| idb_hooked := idb; idp_hooked := idp; _hxeHooks := hxe;
     _repo := _repo c; _branch := _branch c; _tick := _tick c;
     ticks := ticks c; _servers := _servers c; netnode := netnode c;
     sent_packets := sent_packets c;
     connect_requests := connect_requests c |}.

Definition with_identity (repo branch : option string) (tick : Z)
    (ticks_attr : option Z) (c : Core) : Core :=
  {| idb_hooked := idb_hooked c; idp_hooked := idp_hooked c;
     _hxeHooks := _hxeHooks c;
     _repo := repo; _branch := branch; _tick := tick;
     ticks := ticks_attr; _servers := _servers c; netnode := netnode c;
     sent_packets := sent_packets c;
     connect_requests := connect_requests c |}.

Definition with_netnode (node : gmap string (option string)) (c : Core) : Core :=
  {| idb_hooked := idb_hooked c; idp_hooked := idp_hooked c;
     _hxeHooks := _hxeHooks c;
     _repo := _repo c; _branch := _branch c; _tick := _tick c;
     ticks := ticks c; _servers := _servers c; netnode := node;
     sent_packets := sent_packets c;
     connect_requests := connect_requests c |}.

Definition with_servers (servers : list (json * json)) (c : Core) : Core :=
  {| idb_hooked := idb_hooked c; idp_hooked := idp_hooked c;
     _hxeHooks := _hxeHooks c;
     _repo := _repo c; _branch := _branch c; _tick := _tick c;
     ticks := ticks c; _servers := servers; netnode := netnode c;
     sent_packets := sent_packets c;
     connect_requests := connect_requests c |}.

(** [self._plugin.network.send_packet]. *)
Definition send_packet (p : command) (c : Core) : Core :=
  {| idb_hooked := idb_hooked c; idp_hooked := idp_hooked c;
     _hxeHooks := _hxeHooks c;
     _repo := _repo c; _branch := _branch c; _tick := _tick c;
     ticks := ticks c; _servers := _servers c; netnode := netnode c;
     sent_packets := sent_packets c ++ [p];
     connect_requests := connect_requests c |}.

(** [self._plugin.network.connect]. *)
Definition network_connect (host port : json) (c : Core) : Core :=
  {| idb_hooked := idb_hooked c; idp_hooked := idp_hooked c;
     _hxeHooks := _hxeHooks c;
     _repo := _repo c; _branch := _branch c; _tick := _tick c;
     ticks := ticks c; _servers := _servers c; netnode := netnode c;
     sent_packets := sent_packets c;
     connect_requests := connect_requests c ++ [(host, port)] |}.

(** [str] of an integer. *)
Definition str (z : Z) : string := NilZero.string_of_int (Z.to_int z).

(** [save_netnode]: the three [hashset] calls, in order.  The store
    records under each key the value it was handed, [None] included: what
    [hashval] returns for it afterwards is again [None]. *)
Definition save_netnode (c : Core) : Core :=
  let node := netnode c in
  let node := <["hash" := _repo c]> node in
  let node := <["uuid" := _branch c]> node in
  let node := <["tick" := Some (str (_tick c))]> node in
  with_netnode node c.

(** The property setters. *)
Definition set_repo (hash : option string) (c : Core) : Core :=
  save_netnode (with_identity hash (_branch c) (_tick c) (ticks c) c).

Definition set_branch (uuid : option string) (c : Core) : Core :=
  save_netnode (with_identity (_repo c) uuid (_tick c) (ticks c) c).

Definition set_tick (tick : Z) (c : Core) : Core :=
  save_netnode (with_identity (_repo c) (_branch c) tick (ticks c) c).

(** [core.ticks = 0]: [Core] has no property of that name, so the
    assignment binds a plain attribute. *)
Definition set_ticks (v : Z) (c : Core) : Core :=
  with_identity (_repo c) (_branch c) (_tick c) (Some v) c.

Definition hook_all (h : Host) (c : Core) : Core :=
  with_hooks true true (HexRaysHooks_hook h (_hxeHooks c)) c.

Definition unhook_all (c : Core) : Core :=
  with_hooks false false (HexRaysHooks_unhook (_hxeHooks c)) c.

(** [IDBHooksCore.closebase]. *)
Definition closebase (core : Core) : Core * Z :=
  let core := send_packet Unsubscribe core in
  let core := unhook_all core in
  let core := set_repo None core in
  let core := set_branch None core in
  let core := set_ticks 0 core in
  (core, 0).

(** Truthiness of [self._repo] and [self._branch]. *)
Definition truthy_str (s : option string) : bool :=
  match s with
  | None => false
  | Some s => negb (bool_decide (s = ""))
  end.

Definition notify_connected (h : Host) (c : Core) : Core :=
  if truthy_str (_repo c) && truthy_str (_branch c) then
    let packet :=
      Subscribe (default "" (_repo c)) (default "" (_branch c)) (_tick c) in
    hook_all h (send_packet packet c)
  else c.

(** The named tuple [Server], built from the unpacked entry: it takes
    exactly two fields. *)
Definition unpack_server (s : json) : option (json * json) :=
  match s with
  | JList [host; port] => Some (host, port)
  | JStr (String a (String b EmptyString)) =>
      Some (JStr (String a EmptyString), JStr (String b EmptyString))
  | _ => None
  end.

(** The list comprehension over the value of the key ['servers']. *)
Definition load_servers (v : json) : exn + list (json * json) :=
  match v with
  | JList l =>
      match mapM unpack_server l with
      | Some servers => inr servers
      | None => inl TypeError
      end
  | JStr s => if bool_decide (s = "") then inr [] else inl TypeError
  | _ => inl TypeError
  end.

(** The loop [for ext in [...]] of [load_state]: it stops at the first
    [os.remove] that raises. *)
Fixpoint remove_each (idbFile : string) (exts : list string) (fs : filesystem)
  : option exn * filesystem :=
  match exts with
  | [] => (None, fs)
  | ext :: exts =>
      if os_path_exists fs (idbFile ++ ext) then
        match os_remove fs (idbFile ++ ext) with
        | inl e => (Some e, fs)
        | inr fs => remove_each idbFile exts fs
        end
      else remove_each idbFile exts fs
  end.

Definition extensions : list string := [".id0"; ".id1"; ".nam"; ".til"; ".seg"].

(** [Core.load_state]: the exception that left it, if any, and the module
    and the disk afterwards. *)
Definition load_state (fs : filesystem) (self : Core)
  : option exn * Core * filesystem :=
  match state_json fs with
  | None => (None, self, fs)
  | Some state =>
      let servers :=
        match state !! "servers" with
        | Some v =>
            match load_servers v with
            | inr servers => inr (with_servers servers self)
            | inl e => inl e
            end
        | None => inr self
        end in
      match servers with
      | inl e => (Some e, self, fs)
      | inr self =>
          if from_option truthy false (state !! "connect") then
            let self :=
              match state !! "host", state !! "port" with
              | Some host, Some port => network_connect host port self
              | _, _ => self
              end in
            match state !! "remove" with
            | Some (JStr remove) =>
                let '(idbFile, idbExt) := splitext remove in
                let '(e, fs) := remove_each idbFile extensions fs in
                (e, self, fs)
            | Some _ => (Some AttributeError, self, fs)
            | None => (None, self, fs)
            end
          else (None, self, fs)
      end
  end.

(** [Core.__init__] followed by the creation of the hook objects in
    [_install]. *)
Definition Core_init (h : Host) : Core :=
  {| idb_hooked := false; idp_hooked := false;
     _hxeHooks := HexRaysHooks_init h;
     _repo := None; _branch := None; _tick := 0; ticks := None;
     _servers := []; netnode := ∅;
     sent_packets := []; connect_requests := [] |}.

(** * Definitions used to state the properties *)

(** The slot the differencing engine sees at index [i] of a snapshot when
    a missing index counts as the null slot. *)
Definition padded (l : list slot) (i : nat) : slot :=
  match l !! i with
  | Some s => s
  | None => None
  end.

(** The indices [differ_local_types] collects: every index one of the two
    snapshots lacks, and every common index whose slots differ. *)
Definition collected (P C : list slot) (i : nat) : Prop :=
  (length P ≤ i)%nat ∨ (length C ≤ i)%nat ∨ padded P i ≠ padded C i.

#[global] Instance collected_dec P C i : Decision (collected P C i).
Proof. unfold collected. apply _. Defined.

(** The changed-index set as the specification words it: the indices of
    [range(max(len P, len C))] at which the padded slots differ. *)
Definition spec_changed_set (P C : list slot) : list (nat * slot * slot) :=
  map (λ i, (i, padded P i, padded C i))
      (filter (λ i, padded P i ≠ padded C i)
              (seq 0 (max (length P) (length C)))).

(** The transmitted sequence as the specification words it for a
    comparison that is not the first: pairs of index and new value. *)
Definition spec_transmitted (P C : list slot) : list (nat * slot) :=
  map (λ t : nat * slot * slot, (t.1.1, t.2)) (differ_local_types P C).

(** The non-null slots of a snapshot. *)
Definition non_null_slots (l : list slot) : list slot :=
  filter (λ s : slot, s ≠ None) l.

(** The suppression condition as the specification words it: the change
    set is a single entry that became absent at the last position. *)
Definition spec_swallowed (P C : list slot) : Prop :=
  ∃ old, differ_local_types P C =
         [((max (length P) (length C) - 1)%nat, old, None)].

(** The operand's representation bits, as [op_type_changed] reads them:
    the full flags of the address under the mask of operand [n]. *)
Definition operand_mask (h : Host) (n : Z) : Z :=
  if bool_decide (n = 0) then MS_0TYPE h else MS_1TYPE h.

Definition operand_flags (h : Host) (ea n : Z) : Z :=
  Z.land (get_full_flags h ea) (operand_mask h n).

(** The operand's bits match the representation mask [type]: they equal
    it under the operand's mask. *)
Definition is_flag (h : Host) (ea n type : Z) : Prop :=
  operand_flags h ea n = Z.land (operand_mask h n) type.

#[global] Instance is_flag_dec h ea n type : Decision (is_flag h ea n type).
Proof. unfold is_flag. apply _. Defined.

(** The eight known representation masks, in the order of the kinds of
    [known_ops]. *)
Definition known_masks (h : Host) : list Z :=
  [hex_flag h; dec_flag h; char_flag h; bin_flag h; oct_flag h;
   enum_flag h; stroff_flag h; stkvar_flag h].

(** Every bit of the operand's representation is a bit of the
    struct-offset mask; the operand without any representation bit is
    the first example. *)
Definition within_stroff (h : Host) (ea n : Z) : Prop :=
  Z.land (operand_flags h ea n) (stroff_flag h) = operand_flags h ea n.

#[global] Instance within_stroff_dec h ea n : Decision (within_stroff h ea n).
Proof. unfold within_stroff. apply _. Defined.

Definition known_ops : list string :=
  ["hex"; "dec"; "chr"; "bin"; "oct"; "enum"; "struct"; "stkvar"].

(** [HexRaysHooks] never has [_installed] set without [_available]. *)
Definition installed_implies_available (x : HexRaysHooks) : Prop :=
  _installed x = true → _available x = Some true.

(** What one sub-cache contributes to a refresh: its event when the value
    the host holds differs from the previous one. *)
Definition emitted_if {A} `{EqDecision A} (new old : A) (e : event)
  : list event :=
  if decide (new ≠ old) then [e] else [].

(** The events of one refresh of the function at [ea], in the order of
    the five comparisons, when the caches are [s]. *)
Definition refresh_events (h : Host) (ea : Z) (s : HexRaysHooks) : list event :=
  emitted_if (cached (_get_user_labels h ea)) (_labels s)
    (UserLabelsEvent ea (_get_user_labels h ea))
  ++ emitted_if (cached (_get_user_cmts h ea)) (_cmts s)
       (UserCmtsEvent ea (_get_user_cmts h ea))
  ++ emitted_if (cached (_get_user_iflags h ea)) (_iflags s)
       (UserIflagsEvent ea (_get_user_iflags h ea))
  ++ emitted_if (_get_user_lvar_settings h ea) (_lvar_settings s)
       (UserLvarSettingsEvent ea (_get_user_lvar_settings h ea))
  ++ emitted_if (cached (_get_user_numforms h ea)) (_numforms s)
       (UserNumformsEvent ea (_get_user_numforms h ea)).

(** The caches after every sub-cache has been compared against the host:
    each holds what the host holds for the function at [ea]. *)
Definition synced (h : Host) (ea : Z) (s : HexRaysHooks) : HexRaysHooks :=
  {| _available := _available s; _installed := _installed s;
     _func_ea := _func_ea s;
     _labels := cached (_get_user_labels h ea);
     _cmts := cached (_get_user_cmts h ea);
     _iflags := cached (_get_user_iflags h ea);
     _lvar_settings := _get_user_lvar_settings h ea;
     _numforms := cached (_get_user_numforms h ea) |}.

(** The clean-up loop as the specification words it: every sibling is
    tried, and a deletion that fails is ignored. *)
Fixpoint spec_remove_each (idbFile : string) (exts : list string)
    (fs : filesystem) : filesystem :=
  match exts with
  | [] => fs
  | ext :: exts =>
      spec_remove_each idbFile exts
        match os_remove fs (idbFile ++ ext) with
        | inr fs' => fs'
        | inl _ => fs
        end
  end.

(** The disk once the paths [removed] are gone. *)
Definition without (removed : list string) (fs : filesystem) : filesystem :=
  {| state_json := state_json fs;
     present := present fs ∖ list_to_set removed;
     locked := locked fs |}.

(** ** Concrete hosts for the examples

    The flag constants follow the layout of the IDA SDK ([bytes.hpp]: one
    nibble per operand, the same code in both nibbles); everything
    an example does not exercise answers a fixed default. *)

Definition example_host
    (ordinal_qty : nat) (local_type_raw : nat → option (string * string))
    (full_flags : Z → Z) (func_at : Z → option func_t)
    (user_labels : Z → option (list (Z * string)))
    (user_cmts : Z → option (list ((Z * Z) * string))) : Host :=
  {| get_cmt := λ _ _, None;
     get_full_flags := full_flags;
     get_enum_id := λ _ _, 0;
     get_stroff_path := λ _ _, ([], 0);
     get_wide_byte := λ _, 0;
     MS_0TYPE := 0x00F00000;
     MS_1TYPE := 0x0F000000;
     hex_flag := 0x01100000;
     dec_flag := 0x02200000;
     char_flag := 0x03300000;
     bin_flag := 0x06600000;
     oct_flag := 0x07700000;
     enum_flag := 0x08800000;
     stroff_flag := 0x0AA00000;
     stkvar_flag := 0x0BB00000;
     off_flag := 0x05500000;
     stru_flag := 0x60000000;
     strlit_flag := 0x50000000;
     idc_get_type_raw := λ _, None;
     get_ordinal_qty := ordinal_qty;
     idc_get_local_type_raw := local_type_raw;
     get_numbered_type_name :=
       λ ordinal, Some (String.append "type_" (str (Z.of_nat ordinal)));
     tinfo_reserialize := λ type_str fields_str, (type_str, fields_str);
     get_enum_idx := λ _, 0;
     get_enum_name := λ _, "";
     get_enum_member_name := λ _, "";
     is_bf := λ _, false;
     get_enum_cmt := λ _ _, None;
     get_enum_member_value := λ _, 0;
     get_enum_member_bmask := λ _, 0;
     get_enum_member_serial := λ _, 0;
     get_struc_name := λ _, "";
     get_member_name := λ _, "";
     is_union := λ _, false;
     retrieve_member_info := λ _, None;
     get_struc_cmt := λ _ _, None;
     get_segm_name := λ _, "";
     get_segm_class := λ _, "";
     IDP_Hooks_ev_undefine := λ _, 0;
     IDP_Hooks_ev_adjust_argloc := λ _, 0;
     get_screen_ea := 0x401000;
     get_func := func_at;
     BADADDR := 0xFFFFFFFFFFFFFFFF;
     init_hexrays_plugin := true;
     hxe_func_printed := 5;
     restore_user_labels := user_labels;
     restore_user_cmts := user_cmts;
     restore_user_iflags := λ _, None;
     restore_user_lvar_settings := λ _, None;
     restore_user_numforms := λ _, None;
     Event_decode := λ s, s;
     Event_decode_bytes := λ s, s |}.

(** A type library whose ordinals [1 .. qty - 1] hold a type exactly where
    [holds] says so. *)
Definition types_host (qty : nat) (holds : nat → bool) : Host :=
  example_host qty
    (λ ordinal, if holds ordinal then Some ("=", "") else None)
    (λ _, 0) (λ _, None) (λ _, None) (λ _, None).

(** A database whose operand flags are [flags] at every address. *)
Definition flags_host (flags : Z) : Host :=
  example_host 0 (λ _, None) (λ _, flags) (λ _, None) (λ _, None) (λ _, None).

(** A decompiler view showing the function [[0x401000, 0x401080)] with the
    given user labels and comments. *)
Definition view_host (labels : list (Z * string))
    (cmts : list ((Z * Z) * string)) : Host :=
  example_host 0 (λ _, None) (λ _, 0)
    (λ _, Some {| start_ea := 0x401000; end_ea := 0x401080 |})
    (λ _, Some labels) (λ _, Some cmts).


(** A decompiler view whose cursor is outside every function. *)
Definition no_function_host : Host :=
  example_host 0 (λ _, None) (λ _, 0) (λ _, None) (λ _, None) (λ _, None).

(** ** Example states *)

(** The adapter after a first [local_types_changed] on a type library
    holding types at ordinals 1, 2 and 3. *)
Definition three_types_seen : IDBHooks :=
  self_after (local_types_changed (types_host 4 (λ _, true))
                                  {| last_local_type := None |}).

(** The decompiler hooks, installed, after a first refresh of the function
    at [0x401000], which has no user labels and no user comments yet. *)
Definition viewing_function : HexRaysHooks :=
  self_after
    (call (_hxe_callback (view_host [] []) 5)
          (HexRaysHooks_hook (view_host [] [])
                             (HexRaysHooks_init (view_host [] [])))).

(** A session bound to repository ["r"], branch ["b"], tick 5 through the
    setters, then subscribed by a "connected" notification. *)
Definition subscribed_core : Core :=
  let h := view_host [] [] in
  notify_connected h
    (set_tick 5 (set_branch (Some "b") (set_repo (Some "r") (Core_init h)))).

(** The launch state of the reconnect example. *)
Definition sample_state : gmap string json :=
  <["connect" := JBool true]>
  (<["host" := JStr "h"]>
  (<["port" := JInt 1234]>
  (<["remove" := JStr "/tmp/sample.idb"]> ∅))).

(** The five sibling paths of [/tmp/sample.idb]. *)
Definition sample_siblings : list string :=
  map (String.append "/tmp/sample") extensions.

(** A disk holding the state file and all five siblings, of which
    [/tmp/sample.id1] cannot be deleted. *)
Definition disk_with_locked_id1 : filesystem :=
  {| state_json := Some sample_state;
     present := list_to_set sample_siblings;
     locked := {["/tmp/sample.id1"]} |}.

(** A disk holding the state file and three deletable siblings. *)
Definition disk_with_three_siblings : filesystem :=
  {| state_json := Some sample_state;
     present := list_to_set ["/tmp/sample.id0"; "/tmp/sample.nam";
                             "/tmp/sample.seg"; "/tmp/other.idb"];
     locked := ∅ |}.


(** * The rest of hooks.py and core.py *)

(** ** class UIHooks

    The painter ([self._plugin.interface.painter]) belongs to another
    module: [nbytes] and [users_positions] are its attributes, the latter
    listed in the order in which the dictionary yields its items, each
    user with the value of [infos["address"]]; [clear_database] is its
    method, which answers the colour it found at the address. *)

Record Painter := {
  nbytes : Z;
  users_positions : list (string * Z);
  clear_database : Z → Z;
}.

(** [self._state]: a dictionary from colour to address. *)
Record UIHooks := { _state : gmap Z Z }.

(** [UIHooks.__init__]. *)
Definition UIHooks_init : UIHooks := {| _state := ∅ |}.

(** The test [address - nbytes * 4 <= ea <= address + nbytes * 4]. *)
Definition near (painter : Painter) (ea address : Z) : Prop :=
  (address - nbytes painter * 4 ≤ ea)%Z ∧ (ea ≤ address + nbytes painter * 4)%Z.

#[global] Instance near_dec painter ea address :
  Decision (near painter ea address).
Proof. unfold near. apply _. Defined.

(** [get_ea_hint]: the name of the first user whose cursor is near [ea],
    [None] when the loop ends without returning or the network is not
    connected. *)
Fixpoint first_near (painter : Painter) (ea : Z) (items : list (string * Z))
  : option string :=
  match items with
  | [] => None
  | (name, address) :: items =>
      if decide (near painter ea address) then Some name
      else first_near painter ea items
  end.

Definition get_ea_hint (connected : bool) (painter : Painter) (ea : Z)
  : option string :=
  if connected then first_near painter ea (users_positions painter) else None.

(** The body of the loop of [saving]: the cursor is cleared and its
    address remembered under the colour the painter found there. *)
Definition remember (painter : Painter) (self : UIHooks)
    (user_position : string * Z) : UIHooks :=
  let address := user_position.2 in
  let color := clear_database painter address in
  {| _state := <[color := address]> (_state self) |}.

(** [saving]: the loop over [users_positions.values()]. *)
Definition saving (painter : Painter) (self : UIHooks) : UIHooks :=
  fold_left (remember painter) (users_positions painter) self.

(** [saved]: the calls [painter.repaint_database(color, address)], in the
    order in which the dictionary yields its items. *)
Definition saved (self : UIHooks) : list (Z * Z) := map_to_list (_state self).

(** ** The rest of class Core *)

(** What [save_state] reads of [self._plugin.network]. *)
Record network_t := {
  connected : bool;
  network_host : json;
  network_port : json;
}.

(** The dictionary [state] built by [save_state].  [idbPath and connected]
    is [idbPath] itself when that is [None] or empty. *)
Definition saved_state (net : network_t) (idbPath : option string)
    (self : Core) : gmap string json :=
  let connect :=
    match idbPath with
    | None => JNull
    | Some p => if bool_decide (p = "") then JStr p else JBool (connected net)
    end in
  let state : gmap string json :=
    <["servers" := JList (map (λ s : json * json, JList [s.1; s.2])
                              (_servers self))]>
    (<["connect" := connect]> ∅) in
  if truthy connect then
    let state := <["host" := network_host net]> state in
    let state := <["port" := network_port net]> state in
    <["remove" := from_option JStr JNull idbPath]> state
  else state.

(** [Core.save_state]: the state file is rewritten. *)
Definition save_state (net : network_t) (idbPath : option string)
    (self : Core) (fs : filesystem) : filesystem :=
  {| state_json := Some (saved_state net idbPath self);
     present := present fs;
     locked := locked fs |}.

(** The setter of the property [servers]. *)
Definition set_servers (net : network_t) (servers : list (json * json))
    (self : Core) (fs : filesystem) : Core * filesystem :=
  let self := with_servers servers self in
  (self, save_state net None self fs).

(** [node.hashval(key)]. *)
Definition hashval (node : gmap string (option string)) (key : string)
  : option string :=
  default None (node !! key).

(** How a method that may raise [ValueError] ends, with [self] as it is
    at that point. *)
Inductive ended :=
  | Returned (self : Core)
  | ValueError (self : Core).

Definition core_of (r : ended) : Core :=
  match r with
  | Returned self => self
  | ValueError self => self
  end.

(** [Core.load_netnode].  [int] is Python's conversion of a string to an
    integer, [None] where it raises. *)
Definition load_netnode (int : string → option Z) (self : Core) : ended :=
  let node := netnode self in
  let self :=
    with_identity (hashval node "hash") (_branch self) (_tick self)
                  (ticks self) self in
  let self :=
    with_identity (_repo self) (hashval node "uuid") (_tick self)
                  (ticks self) self in
  let tick :=
    match hashval node "tick" with
    | None => "0"
    | Some s => if bool_decide (s = "") then "0" else s
    end in
  match int tick with
  | Some tick =>
      Returned (with_identity (_repo self) (_branch self) tick
                              (ticks self) self)
  | None => ValueError self
  end.

(** [UIHooksCore.ready_to_run]. *)
Definition ready_to_run (int : string → option Z) (h : Host) (core : Core)
  : ended :=
  match load_netnode int core with
  | ValueError core => ValueError core
  | Returned core =>
      if truthy_str (_repo core) && truthy_str (_branch core) then
        let packet :=
          Subscribe (default "" (_repo core)) (default "" (_branch core))
                    (_tick core) in
        Returned (hook_all h (send_packet packet core))
      else Returned core
  end.

(** The module with the two hook objects of its own, which [_install]
    creates and hooks. *)
Record CoreModule := {
  core : Core;
  uiHooksCore_hooked : bool;
  idbHooksCore_hooked : bool;
}.

(** [Core._install]: [None] is the normal return; when [load_state]
    raises, nothing after it runs. *)
Definition _install (h : Host) (self : CoreModule) (fs : filesystem)
  : option exn * CoreModule * filesystem :=
  let '(e, c, fs) := load_state fs (core self) in
  match e with
  | Some e =>
      (Some e,
       {| core := c; uiHooksCore_hooked := uiHooksCore_hooked self;
          idbHooksCore_hooked := idbHooksCore_hooked self |}, fs)
  | None =>
      let c := with_hooks false false (HexRaysHooks_init h) c in
      (None,
       {| core := c; uiHooksCore_hooked := true;
          idbHooksCore_hooked := true |}, fs)
  end.

(** [Core._uninstall]. *)
Definition _uninstall (net : network_t) (self : CoreModule) (fs : filesystem)
  : CoreModule * filesystem :=
  let c := unhook_all (core self) in
  ({| core := c; uiHooksCore_hooked := false; idbHooksCore_hooked := false |},
   save_state net None c fs).

(** ** Further definitions used to state properties *)

(** The states [HexRaysHooks] can be in: created by [__init__], then
    hooked, unhooked and called back any number of times, the host
    answering as it likes each time. *)
Inductive reachable : HexRaysHooks → Prop :=
  | reachable_init h : reachable (HexRaysHooks_init h)
  | reachable_hook h x : reachable x → reachable (HexRaysHooks_hook h x)
  | reachable_unhook x : reachable x → reachable (HexRaysHooks_unhook x)
  | reachable_callback h event x :
      reachable x →
      reachable (self_after (call (_hxe_callback h event) x)).

(** The store holds the identity the module holds in memory. *)
Definition in_sync (c : Core) : Prop :=
  netnode c !! "hash" = Some (_repo c)
  ∧ netnode c !! "uuid" = Some (_branch c)
  ∧ netnode c !! "tick" = Some (Some (str (_tick c))).

(** The module is bound: repository and branch are non-empty strings. *)
Definition bound (c : Core) : Prop :=
  truthy_str (_repo c) = true ∧ truthy_str (_branch c) = true.

(** A string without the character [c]. *)
Fixpoint lacks (c : ascii) (s : string) : Prop :=
  match s with
  | EmptyString => True
  | String c' rest => c' ≠ c ∧ lacks c rest
  end.

(** A conversion of decimal strings, for the examples. *)
Definition decimal_int (s : string) : option Z :=
  option_map Z.of_int (NilZero.int_of_string s).

(** Example data. *)
Definition two_servers : list (json * json) :=
  [(JStr "relay.example", JInt 31013); (JStr "127.0.0.1", JInt 3000)].

Definition offline : network_t :=
  {| connected := false; network_host := JNull; network_port := JNull |}.

Definition online : network_t :=
  {| connected := true; network_host := JStr "relay.example";
     network_port := JInt 31013 |}.

Definition empty_disk : filesystem :=
  {| state_json := None; present := ∅; locked := ∅ |}.

(** Two users whose cursors had the same colour, and a third. *)
Definition crowded_painter : Painter :=
  {| nbytes := 4;
     users_positions := [("ann", 0x401000); ("bob", 0x402000);
                         ("eve", 0x403000)];
     clear_database := λ address,
       if bool_decide (address = 0x403000) then 0x00FF00 else 0xFFFFFF |}.

(** The host [h] on a machine without the decompiler. *)
Definition without_decompiler (h : Host) : Host :=
  {| get_cmt := get_cmt h;
     get_full_flags := get_full_flags h;
     get_enum_id := get_enum_id h;
     get_stroff_path := get_stroff_path h;
     get_wide_byte := get_wide_byte h;
     MS_0TYPE := MS_0TYPE h;
     MS_1TYPE := MS_1TYPE h;
     hex_flag := hex_flag h;
     dec_flag := dec_flag h;
     char_flag := char_flag h;
     bin_flag := bin_flag h;
     oct_flag := oct_flag h;
     enum_flag := enum_flag h;
     stroff_flag := stroff_flag h;
     stkvar_flag := stkvar_flag h;
     off_flag := off_flag h;
     stru_flag := stru_flag h;
     strlit_flag := strlit_flag h;
     idc_get_type_raw := idc_get_type_raw h;
     get_ordinal_qty := get_ordinal_qty h;
     idc_get_local_type_raw := idc_get_local_type_raw h;
     get_numbered_type_name := get_numbered_type_name h;
     tinfo_reserialize := tinfo_reserialize h;
     get_enum_idx := get_enum_idx h;
     get_enum_name := get_enum_name h;
     get_enum_member_name := get_enum_member_name h;
     is_bf := is_bf h;
     get_enum_cmt := get_enum_cmt h;
     get_enum_member_value := get_enum_member_value h;
     get_enum_member_bmask := get_enum_member_bmask h;
     get_enum_member_serial := get_enum_member_serial h;
     get_struc_name := get_struc_name h;
     get_member_name := get_member_name h;
     is_union := is_union h;
     retrieve_member_info := retrieve_member_info h;
     get_struc_cmt := get_struc_cmt h;
     get_segm_name := get_segm_name h;
     get_segm_class := get_segm_class h;
     IDP_Hooks_ev_undefine := IDP_Hooks_ev_undefine h;
     IDP_Hooks_ev_adjust_argloc := IDP_Hooks_ev_adjust_argloc h;
     get_screen_ea := get_screen_ea h;
     get_func := get_func h;
     BADADDR := BADADDR h;
     init_hexrays_plugin := false;
     hxe_func_printed := hxe_func_printed h;
     restore_user_labels := restore_user_labels h;
     restore_user_cmts := restore_user_cmts h;
     restore_user_iflags := restore_user_iflags h;
     restore_user_lvar_settings := restore_user_lvar_settings h;
     restore_user_numforms := restore_user_numforms h;
     Event_decode := Event_decode h;
     Event_decode_bytes := Event_decode_bytes h |}.

(** The colour the painter finds under a user's cursor. *)
Definition colour_of (painter : Painter) (user_position : string * Z) : Z :=
  clear_database painter user_position.2.


(** * Properties of the differencing engine for the type library *)

Section local_types.
Implicit Types P C : list slot.

Lemma getitem_padded P i : getitem P i = padded P i.
Proof.
  unfold getitem, padded. rewrite list_lookup_total_alt.
  destruct (P !! i); reflexivity.
Qed.

Lemma padded_ge P i : (length P ≤ i)%nat → padded P i = None.
Proof.
  intros Hle. unfold padded. rewrite lookup_ge_None_2; [reflexivity | lia].
Qed.

Lemma differ_step_filter P C i :
  differ_step P C i =
  map (λ i, (i, padded P i, padded C i)) (filter (collected P C) [i]).
Proof.
  unfold differ_step. rewrite !getitem_padded.
  rewrite filter_cons, filter_nil. unfold collected.
  destruct (bool_decide_reflect (length P ≤ i)%nat) as [HP|HP].
  { rewrite decide_True by auto. simpl. by rewrite (padded_ge P i HP). }
  destruct (bool_decide_reflect (length C ≤ i)%nat) as [HC|HC].
  { rewrite decide_True by auto. simpl. by rewrite (padded_ge C i HC). }
  destruct (bool_decide_reflect (padded P i ≠ padded C i)) as [Hd|Hd].
  - rewrite decide_True by auto. done.
  - rewrite decide_False; [done|]. intros [?|[?|?]]; [lia | lia | done].
Qed.

Lemma differ_flat_map_filter P C (idx : list nat) :
  flat_map (differ_step P C) idx =
  map (λ i, (i, padded P i, padded C i)) (filter (collected P C) idx).
Proof.
  induction idx as [|i idx IH]; [done|].
  simpl flat_map. rewrite IH, differ_step_filter.
  rewrite <- map_app. f_equal.
  change (i :: idx) with ([i] ++ idx). by rewrite filter_app.
Qed.

Lemma differ_local_types_filter P C :
  differ_local_types P C =
  map (λ i, (i, padded P i, padded C i))
      (filter (collected P C) (seq 0 (max (length P) (length C)))).
Proof. apply differ_flat_map_filter. Qed.

Lemma filter_none {A} (Q : A → Prop) `{∀ x, Decision (Q x)} (l : list A) :
  (∀ x, In x l → ¬ Q x) → filter Q l = [].
Proof.
  induction l as [|x l IH]; intros Hl; [done|].
  rewrite filter_cons_False by (apply Hl; left; done).
  apply IH. intros y Hy. apply Hl. by right.
Qed.

Lemma differ_local_types_same P : differ_local_types P P = [].
Proof.
  rewrite differ_local_types_filter, filter_none; [done|].
  intros i Hi. apply in_seq in Hi.
  unfold collected. intros [?|[?|?]]; [lia | lia | done].
Qed.

Lemma differ_new_values P C :
  map (λ t : nat * slot * slot, t.2) (differ_local_types P C) =
  map (padded C) (map (λ t : nat * slot * slot, t.1.1) (differ_local_types P C)).
Proof.
  rewrite differ_local_types_filter, !map_map. reflexivity.
Qed.

End local_types.

(** C5 (as amended).  [differ_local_types P C] walks the indices
    [0 .. max(len P, len C) - 1] in increasing order and collects
    [(i, old, new)], a missing index reading as the null slot, exactly at
    the indices that one of the two snapshots lacks (whatever the slot on
    the other side holds, the null slot included) and at the common
    indices whose slots differ.  In particular, appending one non-null
    slot to a snapshot of length 3 yields the single entry
    [(3, None, new)]. *)
Theorem differ_local_types_collects :
  (∀ P C : list slot,
     differ_local_types P C =
     map (λ i, (i, padded P i, padded C i))
         (filter (λ i, (length P ≤ i)%nat ∨ (length C ≤ i)%nat
                       ∨ padded P i ≠ padded C i)
                 (seq 0 (max (length P) (length C)))))
  ∧ (∀ (a b c : slot) (v : local_type),
       differ_local_types [a; b; c] ([a; b; c] ++ [Some v])
       = [(3%nat, None, Some v)]).
Proof.
  split.
  - intros P C. apply differ_local_types_filter.
  - intros a b c v. unfold differ_local_types. simpl.
    unfold differ_step, getitem; simpl.
    rewrite !bool_decide_eq_false_2 by (intros Hne; apply Hne; reflexivity).
    reflexivity.
Qed.

(** C5 (as stated) fails: a null slot appended to the snapshot
    [[type_1; type_2; type_3]] is collected as [(3, None, None)], although
    the padded slots at index 3 are equal. *)
Lemma differ_collects_equal_padded_slots :
  let P := collect_local_types (types_host 4 (λ _, true)) in
  let C := collect_local_types (types_host 5 (λ o, bool_decide (o ≠ 4%nat))) in
  differ_local_types P C = [(3%nat, None, None)]
  ∧ spec_changed_set P C = []
  ∧ differ_local_types P C ≠ spec_changed_set P C.
Proof. vm_compute. repeat split; discriminate. Qed.

(** C2 (as amended).  The first comparison (no previous snapshot) sends
    one event carrying the whole current snapshot, every slot in order,
    null slots included; the snapshot becomes the previous one and the
    handler returns 0. *)
Theorem first_comparison_sends_whole_snapshot (h : Host) (C : list slot) :
  compare_local_types {| last_local_type := None |} C
  = Outcome (Some 0) [LocalTypesChangedEvent C] {| last_local_type := Some C |}
  ∧ local_types_changed h {| last_local_type := None |}
    = Outcome (Some 0) [LocalTypesChangedEvent (collect_local_types h)]
              {| last_local_type := Some (collect_local_types h) |}.
Proof. split; reflexivity. Qed.

(** C2 (as stated) fails: with a type at ordinal 1 and none at ordinal 2,
    the first comparison transmits the null slot as well. *)
Lemma first_comparison_sends_null_slots :
  let h := types_host 3 (λ o, bool_decide (o = 1%nat)) in
  let type_1 : slot := Some (1%nat, "=", "", Some "type_1") in
  sent (local_types_changed h {| last_local_type := None |})
  = [LocalTypesChangedEvent [type_1; None]]
  ∧ non_null_slots (collect_local_types h) = [type_1]
  ∧ sent (local_types_changed h {| last_local_type := None |})
    ≠ [LocalTypesChangedEvent (non_null_slots (collect_local_types h))].
Proof. vm_compute. repeat split; discriminate. Qed.

(** C3 (as amended).  On a comparison that is not the first the handler
    returns 0 and the current snapshot replaces the previous one.  Nothing
    is sent when the change set is empty (in particular when the current
    snapshot equals the previous one) or is a single entry whose new value
    is null; otherwise one event is sent, carrying the bare new values of
    the change set (no index attached), which are the slots of the current
    snapshot at the changed indices, in increasing index order. *)
Theorem later_comparison_sends_new_values (h : Host) (P C : list slot) :
  let d := differ_local_types P C in
  let o := compare_local_types {| last_local_type := Some P |} C in
  returned o = Some 0
  ∧ self_after o = {| last_local_type := Some C |}
  ∧ ((d = [] ∧ sent o = [])
     ∨ ((∃ i old, d = [(i, old, None)]) ∧ sent o = [])
     ∨ (d ≠ [] ∧ (∀ i old, d ≠ [(i, old, None)])
        ∧ sent o = [LocalTypesChangedEvent
                      (map (λ t : nat * slot * slot, t.2) d)]))
  ∧ map (λ t : nat * slot * slot, t.2) d
    = map (padded C) (map (λ t : nat * slot * slot, t.1.1) d)
  ∧ map (λ t : nat * slot * slot, t.1.1) d
    = filter (collected P C) (seq 0 (max (length P) (length C)))
  ∧ sent (compare_local_types {| last_local_type := Some P |} P) = []
  ∧ local_types_changed h {| last_local_type := Some P |}
    = compare_local_types {| last_local_type := Some P |}
                          (collect_local_types h).
Proof.
  intros d o. subst o. unfold compare_local_types. simpl.
  fold d. split; [|split; [|split; [|split; [|split; [|split]]]]].
  - destruct (_ && _); [done|]. by destruct (bool_decide _).
  - destruct (_ && _); [done|]. by destruct (bool_decide _).
  - destruct d as [|[[i old] new] [|t d']]; simpl.
    + left. done.
    + destruct new as [v|]; simpl.
      * right; right. split; [done|]. split; [|done]. intros ? ? [=].
      * right; left. split; [by eexists _, _ | done].
    + right; right. split; [done|]. split; [|done]. intros ? ? [=].
  - apply differ_new_values.
  - subst d. rewrite differ_local_types_filter, map_map. simpl. apply map_id.
  - rewrite differ_local_types_same. reflexivity.
  - reflexivity.
Qed.

(** C3 (as stated) fails.  After the snapshot [[type_1; type_2; type_3]],
    removing types 1 and 3 and removing types 2 and 3 change different
    index sets, yet both transmit the same sequence [[None; None]]: the
    event carries no indices.  And removing the last ordinal alone changes
    index 2 but transmits nothing. *)
Lemma transmitted_sequence_has_no_indices :
  let P := collect_local_types (types_host 4 (λ _, true)) in
  let only_2 := types_host 4 (λ o, bool_decide (o = 2%nat)) in
  let only_1 := types_host 4 (λ o, bool_decide (o = 1%nat)) in
  let shorter := types_host 3 (λ _, true) in
  last_local_type three_types_seen = Some P
  ∧ sent (local_types_changed only_2 three_types_seen)
    = [LocalTypesChangedEvent [None; None]]
  ∧ sent (local_types_changed only_1 three_types_seen)
    = [LocalTypesChangedEvent [None; None]]
  ∧ spec_transmitted P (collect_local_types only_2)
    = [(0%nat, None); (2%nat, None)]
  ∧ spec_transmitted P (collect_local_types only_1)
    = [(1%nat, None); (2%nat, None)]
  ∧ spec_transmitted P (collect_local_types shorter) = [(2%nat, None)]
  ∧ sent (local_types_changed shorter three_types_seen) = [].
Proof. vm_compute. repeat split. Qed.

(** C4 (as amended).  On a comparison that is not the first, nothing is
    sent exactly when the change set is empty or is a single entry whose
    new value is null, at whatever position that entry stands; in every
    other case (a single entry with a non-null new value, or more than one
    entry) the new values are sent. *)
Theorem suppression_condition (h : Host) (P C : list slot) :
  let d := differ_local_types P C in
  let o := compare_local_types {| last_local_type := Some P |} C in
  (sent o = [] ↔ d = [] ∨ ∃ i old, d = [(i, old, None)])
  ∧ (sent o = []
     ∨ sent o = [LocalTypesChangedEvent (map (λ t : nat * slot * slot, t.2) d)])
  ∧ local_types_changed h {| last_local_type := Some P |}
    = compare_local_types {| last_local_type := Some P |}
                          (collect_local_types h).
Proof.
  intros d o. subst o. unfold compare_local_types. simpl. fold d.
  split; [|split; [|reflexivity]].
  - destruct d as [|[[i old] new] [|t d']]; simpl.
    + split; auto.
    + destruct new as [v|]; simpl.
      * split; [done|]. intros [[=] | (? & ? & [=])].
      * split; [|done]. intros _. right. by eexists _, _.
    + split; [done|]. intros [[=] | (? & ? & [=])].
  - destruct (_ && _); [by left|]. destruct (bool_decide _); [by left | by right].
Qed.

(** C4 (as stated) fails.  After the snapshot [[type_1; type_2; type_3]],
    deleting type 2 changes index 1 alone, which is not the last position,
    and nothing is sent; an unchanged library sends nothing either. *)
Lemma middle_deletion_is_swallowed :
  let P := collect_local_types (types_host 4 (λ _, true)) in
  let without_2 := types_host 4 (λ o, bool_decide (o ≠ 2%nat)) in
  let C := collect_local_types without_2 in
  last_local_type three_types_seen = Some P
  ∧ differ_local_types P C
    = [(1%nat, Some (2%nat, "=", "", Some "type_2"), None)]
  ∧ sent (local_types_changed without_2 three_types_seen) = []
  ∧ ¬ spec_swallowed P C
  ∧ sent (local_types_changed (types_host 4 (λ _, true)) three_types_seen) = []
  ∧ ¬ spec_swallowed P P.
Proof.
  repeat split; try (vm_compute; reflexivity).
  - intros [old Hd]. vm_compute in Hd. discriminate.
  - intros [old Hd]. vm_compute in Hd. discriminate.
Qed.

(** * Properties of the notification handlers *)

Section op_type.
Context (h : Host).

(** The test of the struct branch, [is_flag(flags & stroff_flag())], holds
    exactly when every bit of the operand lies within the struct-offset
    mask. *)
Lemma struct_test_iff (ea n : Z) :
  is_flag h ea n (Z.land (operand_flags h ea n) (stroff_flag h))
  ↔ within_stroff h ea n.
Proof.
  unfold is_flag, within_stroff, operand_flags.
  set (mask := operand_mask h n). set (full := get_full_flags h ea).
  assert (Z.land mask (Z.land (Z.land full mask) (stroff_flag h))
          = Z.land (Z.land full mask) (stroff_flag h)) as ->.
  { rewrite Z.land_assoc. f_equal.
    by rewrite Z.land_comm, <- Z.land_assoc, Z.land_diag. }
  split; intros Heq; by symmetry.
Qed.

Lemma stroff_match_within (ea n : Z) :
  is_flag h ea n (stroff_flag h) → within_stroff h ea n.
Proof.
  unfold is_flag, within_stroff. intros ->.
  by rewrite <- Z.land_assoc, Z.land_diag.
Qed.

(** The kind chosen by the [if]/[elif] chain, in terms of the masks. *)
Lemma classify_op_kind (ea n : Z) :
  fst <$> classify_op h ea n =
  if decide (is_flag h ea n (hex_flag h)) then Some "hex"
  else if decide (is_flag h ea n (dec_flag h)) then Some "dec"
  else if decide (is_flag h ea n (char_flag h)) then Some "chr"
  else if decide (is_flag h ea n (bin_flag h)) then Some "bin"
  else if decide (is_flag h ea n (oct_flag h)) then Some "oct"
  else if decide (is_flag h ea n (enum_flag h)) then Some "enum"
  else if decide (within_stroff h ea n) then Some "struct"
  else if decide (is_flag h ea n (stkvar_flag h)) then Some "stkvar"
  else None.
Proof.
  pose proof (struct_test_iff ea n) as Hstruct.
  unfold classify_op.
  change (Z.land (get_full_flags h ea)
            (if bool_decide (n = 0) then MS_0TYPE h else MS_1TYPE h))
    with (operand_flags h ea n).
  change (if bool_decide (n = 0) then MS_0TYPE h else MS_1TYPE h)
    with (operand_mask h n).
  unfold is_flag in *.
  repeat case_bool_decide;
    try destruct (gather_enum_info h ea n);
    try destruct (get_stroff_path h ea n);
    simpl; repeat case_decide; first [reflexivity | tauto].
Qed.

End op_type.

Section hexrays.
Context (h : Host).

Lemma method_bind_run {S A B} (m : method S A) (f : A → method S B) w :
  (m ≫= f) w = f (m w).1 (m w).2.
Proof. unfold mbind, method_bind. by destruct (m w). Qed.

Lemma _send_user_labels_run ea s out :
  _send_user_labels h ea (s, out)
  = (tt, (set_labels (cached (_get_user_labels h ea)) s,
          out ++ emitted_if (cached (_get_user_labels h ea)) (_labels s)
                   (UserLabelsEvent ea (_get_user_labels h ea)))).
Proof.
  unfold _send_user_labels, emitted_if. rewrite method_bind_run. simpl.
  case_bool_decide as Hc.
  - rewrite decide_True by done. reflexivity.
  - rewrite decide_False by (intros Hne; by apply Hne).
    rewrite app_nil_r. destruct s; simpl in *. by subst.
Qed.

Lemma _send_user_cmts_run ea s out :
  _send_user_cmts h ea (s, out)
  = (tt, (set_cmts (cached (_get_user_cmts h ea)) s,
          out ++ emitted_if (cached (_get_user_cmts h ea)) (_cmts s)
                   (UserCmtsEvent ea (_get_user_cmts h ea)))).
Proof.
  unfold _send_user_cmts, emitted_if. rewrite method_bind_run. simpl.
  case_bool_decide as Hc.
  - rewrite decide_True by done. reflexivity.
  - rewrite decide_False by (intros Hne; by apply Hne).
    rewrite app_nil_r. destruct s; simpl in *. by subst.
Qed.

Lemma _send_user_iflags_run ea s out :
  _send_user_iflags h ea (s, out)
  = (tt, (set_iflags (cached (_get_user_iflags h ea)) s,
          out ++ emitted_if (cached (_get_user_iflags h ea)) (_iflags s)
                   (UserIflagsEvent ea (_get_user_iflags h ea)))).
Proof.
  unfold _send_user_iflags, emitted_if. rewrite method_bind_run. simpl.
  case_bool_decide as Hc.
  - rewrite decide_True by done. reflexivity.
  - rewrite decide_False by (intros Hne; by apply Hne).
    rewrite app_nil_r. destruct s; simpl in *. by subst.
Qed.

Lemma _send_user_lvar_settings_run ea s out :
  _send_user_lvar_settings h ea (s, out)
  = (tt, (set_lvar_settings (_get_user_lvar_settings h ea) s,
          out ++ emitted_if (_get_user_lvar_settings h ea) (_lvar_settings s)
                   (UserLvarSettingsEvent ea (_get_user_lvar_settings h ea)))).
Proof.
  unfold _send_user_lvar_settings, emitted_if. rewrite method_bind_run. simpl.
  case_bool_decide as Hc.
  - rewrite decide_True by done. reflexivity.
  - rewrite decide_False by (intros Hne; by apply Hne).
    rewrite app_nil_r. destruct s; simpl in *. by subst.
Qed.

Lemma _send_user_numforms_run ea s out :
  _send_user_numforms h ea (s, out)
  = (tt, (set_numforms (cached (_get_user_numforms h ea)) s,
          out ++ emitted_if (cached (_get_user_numforms h ea)) (_numforms s)
                   (UserNumformsEvent ea (_get_user_numforms h ea)))).
Proof.
  unfold _send_user_numforms, emitted_if. rewrite method_bind_run. simpl.
  case_bool_decide as Hc.
  - rewrite decide_True by done. reflexivity.
  - rewrite decide_False by (intros Hne; by apply Hne).
    rewrite app_nil_r. destruct s; simpl in *. by subst.
Qed.

(** The five comparisons of a refresh, run from [s] with [out] already
    sent. *)
Lemma send_all_run ea s out :
  (_send_user_labels h ea;; _send_user_cmts h ea;; _send_user_iflags h ea;;
   _send_user_lvar_settings h ea;; _send_user_numforms h ea;;
   mret (Some 0)) (s, out)
  = (Some 0, (synced h ea s, out ++ refresh_events h ea s)).
Proof.
  rewrite method_bind_run, _send_user_labels_run. simpl.
  rewrite method_bind_run, _send_user_cmts_run. simpl.
  rewrite method_bind_run, _send_user_iflags_run. simpl.
  rewrite method_bind_run, _send_user_lvar_settings_run. simpl.
  rewrite method_bind_run, _send_user_numforms_run. simpl.
  unfold mret, method_ret, refresh_events. rewrite <- !app_assoc. reflexivity.
Qed.

End hexrays.

Section hexrays_callback.
Context (h : Host).

Lemma emitted_if_same {A} `{EqDecision A} (x : A) (e : event) :
  emitted_if x x e = [].
Proof. unfold emitted_if. by rewrite decide_False by (intros Hne; by apply Hne). Qed.

Lemma emitted_if_length {A} `{EqDecision A} (x y : A) (e : event) :
  (length (emitted_if x y e) ≤ 1)%nat.
Proof. unfold emitted_if. destruct (decide _); simpl; lia. Qed.

Lemma refresh_events_length ea s : (length (refresh_events h ea s) ≤ 5)%nat.
Proof.
  unfold refresh_events. rewrite !length_app.
  pose proof (emitted_if_length (cached (_get_user_labels h ea)) (_labels s)
                (UserLabelsEvent ea (_get_user_labels h ea))).
  pose proof (emitted_if_length (cached (_get_user_cmts h ea)) (_cmts s)
                (UserCmtsEvent ea (_get_user_cmts h ea))).
  pose proof (emitted_if_length (cached (_get_user_iflags h ea)) (_iflags s)
                (UserIflagsEvent ea (_get_user_iflags h ea))).
  pose proof (emitted_if_length (_get_user_lvar_settings h ea) (_lvar_settings s)
                (UserLvarSettingsEvent ea (_get_user_lvar_settings h ea))).
  pose proof (emitted_if_length (cached (_get_user_numforms h ea)) (_numforms s)
                (UserNumformsEvent ea (_get_user_numforms h ea))).
  lia.
Qed.

(** [_hxe_callback] unfolded along its four exits. *)
Lemma _hxe_callback_run (event : Z) (self : HexRaysHooks) :
  call (_hxe_callback h event) self =
  if negb (_installed self) then Outcome (Some 0) [] self
  else if bool_decide (event = hxe_func_printed h) then
    match get_func h (get_screen_ea h) with
    | None => Outcome None [] self
    | Some func =>
        let s := if bool_decide (_func_ea self ≠ start_ea func)
                 then rebind h func self else self in
        Outcome (Some 0) (refresh_events h (start_ea func) s)
                (synced h (start_ea func) s)
    end
  else Outcome (Some 0) [] self.
Proof.
  unfold call, _hxe_callback. rewrite method_bind_run. simpl.
  destruct (_installed self); simpl; [|reflexivity].
  case_bool_decide; [|reflexivity].
  destruct (get_func h (get_screen_ea h)) as [func|]; [|reflexivity].
  rewrite method_bind_run.
  case_bool_decide; simpl; rewrite send_all_run; reflexivity.
Qed.


End hexrays_callback.






(** C6 (as amended).  [op_type_changed] always returns 0 and sends nothing
    or exactly one event, whose operand kind is one of hex, dec, chr, bin,
    oct, enum, struct, stkvar.  An operand whose bits match one of the
    eight known masks is sent with the kind of the first mask it matches
    (a match of the last mask, stkvar, only when some bit of the operand
    lies outside the struct-offset mask).  An operand matching none of the
    eight masks is dropped only when some bit of it lies outside the
    struct-offset mask; otherwise, the operand without any bit included,
    it is sent as struct. *)
Theorem op_type_changed_known_masks (h : Host) (ea n : Z) :
  let o := op_type_changed h ea n in
  let unmatched := Forall (λ m, ¬ is_flag h ea n m) (known_masks h) in
  o.2 = 0
  ∧ (o.1 = []
     ∨ ∃ op extra, op ∈ known_ops ∧ o.1 = [OpTypeChangedEvent ea n op extra])
  ∧ (o.1 = [] ↔ unmatched ∧ ¬ within_stroff h ea n)
  ∧ (unmatched → within_stroff h ea n →
     ∃ extra, o.1 = [OpTypeChangedEvent ea n "struct" extra])
  ∧ (∀ k m op,
       known_masks h !! k = Some m → known_ops !! k = Some op →
       is_flag h ea n m →
       Forall (λ m, ¬ is_flag h ea n m) (take k (known_masks h)) →
       (k = 7%nat → ¬ within_stroff h ea n) →
       ∃ extra, o.1 = [OpTypeChangedEvent ea n op extra]).
Proof.
  intros o unmatched. subst o unmatched.
  pose proof (classify_op_kind h ea n) as Hkind.
  pose proof (stroff_match_within h ea n) as Hstroff.
  unfold op_type_changed, known_masks.
  rewrite !Forall_cons, Forall_nil.
  destruct (classify_op h ea n) as [[op extra]|]; simpl in *.
  - split; [reflexivity|]. split; [|split; [|split]].
    + right. exists op, extra. split; [|reflexivity].
      unfold known_ops.
      repeat case_decide; simplify_eq; set_solver.
    + split; [discriminate|]. intros Hnone.
      repeat case_decide; first [discriminate | tauto].
    + intros Hnone Hwithin. exists extra.
      repeat case_decide; first [tauto | by simplify_eq].
    + intros k m op' Hm Hop Hflag Hpre Hside. exists extra.
      do 8 (destruct k as [|k]; simpl in Hm, Hop, Hpre;
            [rewrite ?Forall_cons in Hpre; simplify_eq;
             repeat case_decide; first [tauto | by simplify_eq]|]).
      discriminate.
  - split; [reflexivity|]. split; [by left|]. split; [|split].
    + split; [|reflexivity]. intros _.
      repeat case_decide; first [discriminate | tauto].
    + intros Hnone Hwithin.
      repeat case_decide; first [discriminate | tauto].
    + intros k m op' Hm Hop Hflag Hpre Hside.
      do 8 (destruct k as [|k]; simpl in Hm, Hop, Hpre;
            [simplify_eq; repeat case_decide; first [discriminate | tauto]|]).
      discriminate.
Qed.

(** An operand without any representation bit matches none of the eight
    known masks, and yet an event is sent for it, as struct. *)
Lemma zero_flags_sent_as_struct :
  Forall (λ m, ¬ is_flag (flags_host 0) 0x401000 0 m)
         (known_masks (flags_host 0))
  ∧ (op_type_changed (flags_host 0) 0x401000 0).1
    = [OpTypeChangedEvent 0x401000 0 "struct"
         (<["spath" := XStrs []]> (<["delta" := XInt 0]> ∅))]
  ∧ (op_type_changed (flags_host 0) 0x401000 0).2 = 0.
Proof.
  split; [|split; reflexivity].
  unfold known_masks. repeat constructor; unfold is_flag; by vm_compute.
Qed.

(** The test of the struct branch is satisfied by an operand without any
    representation bits: such an operand is never dropped, it always
    produces an event. *)
Lemma op_type_changed_zero_flags (h : Host) (ea n : Z) :
  operand_flags h ea n = 0 →
  ∃ op extra, (op_type_changed h ea n).1 = [OpTypeChangedEvent ea n op extra].
Proof.
  intros Hz. pose proof (classify_op_kind h ea n) as Hkind.
  assert (within_stroff h ea n) as Hwithin.
  { unfold within_stroff. rewrite Hz. apply Z.land_0_l. }
  unfold op_type_changed.
  destruct (classify_op h ea n) as [[op extra]|]; simpl in *; [by eauto|].
  repeat case_decide; first [discriminate | tauto].
Qed.

Lemma op_type_changed_zero_flags_witness :
  ∃ op extra,
    (op_type_changed (flags_host 0) 0x401000 0).1
    = [OpTypeChangedEvent 0x401000 0 op extra].
Proof.
  apply (op_type_changed_zero_flags (flags_host 0) 0x401000 0). reflexivity.
Defined.

(** C7 (as amended).  Every [IDBHooks] and [IDPHooks] entry point sends at
    most one event and returns the status the host expects (0, or the base
    class's answer for the two [IDPHooks] methods).  The decompiler
    callback sends at most five events, one per sub-cache that changed,
    and returns 0 whenever it is not installed, the event is not a
    function refresh, or the cursor is inside a function. *)
Theorem notification_outcomes (h : Host) :
  (∀ (n : notification) (self : IDBHooks),
     let o := notify h n self in
     returned o = Some (expected_status h n) ∧ (length (sent o) ≤ 1)%nat)
  ∧ (∀ (event : Z) (self : HexRaysHooks),
       let o := call (_hxe_callback h event) self in
       (length (sent o) ≤ 5)%nat
       ∧ (returned o = Some 0
          ∨ (_installed self = true ∧ event = hxe_func_printed h
             ∧ get_func h (get_screen_ea h) = None))).
Proof.
  split.
  - intros n self o. subst o.
    destruct n; simpl; try (split; [reflexivity | lia]).
    + unfold local_types_changed, compare_local_types.
      destruct (last_local_type self); simpl; [|split; [reflexivity | lia]].
      destruct (_ && _); simpl; [split; [reflexivity | lia]|].
      destruct (bool_decide _); simpl; split; (reflexivity || lia).
    + unfold op_type_changed.
      destruct (classify_op h ea n) as [[op extra]|]; simpl;
        split; (reflexivity || lia).
    + unfold struc_member_created.
      destruct (retrieve_member_info h mptr); simpl;
        [destruct (member_extra h _ _); simpl|]; split; (reflexivity || lia).
    + unfold struc_cmt_changed.
      destruct (split_first_dot _) as [[? ?]|]; simpl;
        split; (reflexivity || lia).
    + unfold struc_member_changed.
      destruct (retrieve_member_info h mptr); simpl;
        [destruct (member_extra h _ _); simpl|]; split; (reflexivity || lia).
  - intros event self o. subst o. rewrite _hxe_callback_run.
    destruct (_installed self); simpl; [|split; [lia | by left]].
    case_bool_decide; [|split; [simpl; lia | by left]].
    destruct (get_func h (get_screen_ea h)) as [func|]; simpl.
    + split; [apply refresh_events_length | by left].
    + split; [lia | right; auto].
Qed.

(** C7 (as stated) fails.  A refresh of the viewed function after a label
    and a comment were added sends two events; and a refresh while the
    cursor is outside every function returns [None], not 0. *)
Lemma refresh_sends_two_events :
  let h := view_host [(0x401004, "retry")] [((0x401010, 70), "checked")] in
  sent (call (_hxe_callback h 5) viewing_function)
  = [UserLabelsEvent 0x401000 [(0x401004, "retry")];
     UserCmtsEvent 0x401000 [((0x401010, 70), "checked")]]
  ∧ returned (call (_hxe_callback no_function_host 5) viewing_function) = None.
Proof. split; reflexivity. Qed.

(** * Properties of the session state manager *)

Example splitext_sample : splitext "/tmp/sample.idb" = ("/tmp/sample", ".idb").
Proof. reflexivity. Qed.

Example splitext_hidden : splitext "/tmp/.profile" = ("/tmp/.profile", "").
Proof. reflexivity. Qed.

Example splitext_dotted_dir : splitext "/a.b/c" = ("/a.b/c", "").
Proof. reflexivity. Qed.

Example str_samples : str 0 = "0" ∧ str 1234 = "1234" ∧ str (-7) = "-7".
Proof. repeat split; reflexivity. Qed.

Lemma hook_keeps_installed_implies_available (h : Host) (x : HexRaysHooks) :
  installed_implies_available x →
  installed_implies_available (HexRaysHooks_hook h x).
Proof.
  unfold installed_implies_available, HexRaysHooks_hook.
  intros Hx. destruct x as [[[|]|] inst ? ? ? ? ? ?]; simpl in *;
    try destruct (init_hexrays_plugin h); simpl;
    repeat case_bool_decide; simpl; try done.
  intros Hi. by specialize (Hx Hi).
Qed.

Lemma unhook_keeps_installed_implies_available (x : HexRaysHooks) :
  installed_implies_available x →
  installed_implies_available (HexRaysHooks_unhook x).
Proof.
  unfold installed_implies_available, HexRaysHooks_unhook.
  intros Hx. destruct x as [[[|]|] inst ? ? ? ? ? ?]; simpl in *; auto;
    discriminate.
Qed.

Lemma init_installed_implies_available (h : Host) :
  installed_implies_available (HexRaysHooks_init h).
Proof. unfold installed_implies_available. simpl. discriminate. Qed.

Lemma unhook_uninstalls (x : HexRaysHooks) :
  installed_implies_available x → _installed (HexRaysHooks_unhook x) = false.
Proof.
  unfold installed_implies_available, HexRaysHooks_unhook.
  intros Hx. destruct x as [[[|]|] [|] ? ? ? ? ? ?]; simpl in *; auto;
    specialize (Hx eq_refl); discriminate.
Qed.

(** C1 (as amended).  [closebase] sends [Unsubscribe], deactivates the
    three hook objects, resets the repository and the branch to [None] in
    memory and returns 0.  Both resets go through the property setters,
    each of which saves the identity: afterwards the store holds [None]
    under ["hash"] and ["uuid"] and the decimal string of the in-memory
    tick under ["tick"]; its other keys are as before. *)
Theorem closebase_effects (core : Core) :
  installed_implies_available (_hxeHooks core) →
  let after := (closebase core).1 in
  (closebase core).2 = 0
  ∧ sent_packets after = sent_packets core ++ [Unsubscribe]
  ∧ idb_hooked after = false
  ∧ idp_hooked after = false
  ∧ _installed (_hxeHooks after) = false
  ∧ _repo after = None
  ∧ _branch after = None
  ∧ netnode after
    = <["tick" := Some (str (_tick after))]>
      (<["uuid" := None]> (<["hash" := None]> (netnode core))).
Proof.
  intros Hwf after. subst after. unfold closebase. simpl.
  repeat split.
  - by apply unhook_uninstalls.
  - apply map_eq. intros k.
    rewrite !lookup_insert. repeat case_decide; done.
Qed.

(** C1, at an instance: the subscribed session of the example is closed. *)
Lemma closebase_effects_witness :
  let after := (closebase subscribed_core).1 in
  (closebase subscribed_core).2 = 0
  ∧ sent_packets after = sent_packets subscribed_core ++ [Unsubscribe]
  ∧ idb_hooked after = false
  ∧ idp_hooked after = false
  ∧ _installed (_hxeHooks after) = false
  ∧ _repo after = None
  ∧ _branch after = None
  ∧ netnode after
    = <["tick" := Some (str (_tick after))]>
      (<["uuid" := None]> (<["hash" := None]> (netnode subscribed_core))).
Proof.
  apply (closebase_effects subscribed_core). intros _. reflexivity.
Defined.

(** C1 (as stated) fails.  Closing the subscribed session of the example
    leaves the in-memory tick at 5 (the assignment binds the attribute
    [ticks] instead) and overwrites the stored repository and branch. *)
Lemma closebase_keeps_tick_and_writes_store :
  let after := (closebase subscribed_core).1 in
  sent_packets subscribed_core = [Subscribe "r" "b" 5]
  ∧ idb_hooked subscribed_core = true
  ∧ _tick subscribed_core = 5
  ∧ netnode subscribed_core !! "hash" = Some (Some "r")
  ∧ netnode subscribed_core !! "uuid" = Some (Some "b")
  ∧ netnode subscribed_core !! "tick" = Some (Some "5")
  ∧ _tick after = 5
  ∧ ticks after = Some 0
  ∧ netnode after !! "hash" = Some None
  ∧ netnode after !! "uuid" = Some None
  ∧ netnode after !! "tick" = Some (Some "5")
  ∧ netnode after ≠ netnode subscribed_core.
Proof.
  repeat split; try (vm_compute; reflexivity).
  intros Heq. apply (f_equal (λ m : gmap string (option string), m !! "hash")) in Heq.
  vm_compute in Heq. discriminate.
Qed.

Section cleanup.
Implicit Types (fs : filesystem) (idbFile ext e p : string)
  (exts pre post removed : list string).

Lemma without_nil fs : without [] fs = fs.
Proof.
  destruct fs as [s p l]. unfold without. simpl. f_equal. set_solver.
Qed.

Lemma without_cons p removed fs :
  without removed (without [p] fs) = without (p :: removed) fs.
Proof. unfold without. simpl. f_equal. set_solver. Qed.

Lemma without_absent p fs : p ∉ present fs → without [p] fs = fs.
Proof.
  intros Hp. destruct fs as [s q l]. unfold without. simpl in *. f_equal.
  set_solver.
Qed.

(** One iteration of the loop on a sibling that is absent or deletable. *)
Lemma remove_each_step idbFile ext exts fs :
  (idbFile +:+ ext ∈ present fs → idbFile +:+ ext ∉ locked fs) →
  remove_each idbFile (ext :: exts) fs
  = remove_each idbFile exts (without [idbFile +:+ ext] fs).
Proof.
  intros Hok. simpl. unfold os_path_exists, os_remove.
  destruct (bool_decide_reflect (idbFile +:+ ext ∈ present fs)) as [Hin|Hout].
  - rewrite bool_decide_eq_false_2 by auto. simpl.
    f_equal. unfold without. simpl. f_equal. set_solver.
  - by rewrite without_absent.
Qed.

Lemma remove_each_all idbFile exts fs :
  (∀ ext, ext ∈ exts →
     idbFile +:+ ext ∈ present fs → idbFile +:+ ext ∉ locked fs) →
  remove_each idbFile exts fs
  = (None, without (map (String.append idbFile) exts) fs).
Proof.
  revert fs. induction exts as [|ext exts IH]; intros fs Hok.
  - simpl. by rewrite without_nil.
  - rewrite remove_each_step by (apply Hok; left).
    rewrite IH.
    + simpl map. by rewrite without_cons.
    + intros e He Hin. simpl in *. apply Hok; [by right | set_solver].
Qed.

Lemma remove_each_stops idbFile pre ext post fs :
  (∀ e, e ∈ pre → idbFile +:+ e ∈ present fs → idbFile +:+ e ∉ locked fs) →
  idbFile +:+ ext ∈ present fs →
  idbFile +:+ ext ∈ locked fs →
  remove_each idbFile (pre ++ ext :: post) fs
  = (Some (OSError (idbFile +:+ ext)),
     without (map (String.append idbFile) pre) fs).
Proof.
  revert fs. induction pre as [|e pre IH]; intros fs Hok Hin Hlock.
  - simpl. unfold os_path_exists, os_remove.
    rewrite !bool_decide_eq_true_2 by done. simpl. by rewrite without_nil.
  - simpl app. rewrite remove_each_step by (apply Hok; left).
    rewrite IH.
    + simpl map. by rewrite without_cons.
    + intros e' He' Hin'. simpl in *. apply Hok; [by right | set_solver].
    + simpl. apply elem_of_difference. split; [done|].
      intros Heq. assert (idbFile +:+ ext = idbFile +:+ e) as Hsame
        by set_solver.
      apply (Hok e); [by left | by rewrite <- Hsame | by rewrite <- Hsame].
    + done.
Qed.

End cleanup.

Lemma load_state_sample_run (self : Core) (fs : filesystem) :
  state_json fs = Some sample_state →
  load_state fs self
  = let '(e, fs') := remove_each "/tmp/sample" extensions fs in
    (e, network_connect (JStr "h") (JInt 1234) self, fs').
Proof.
  intros Hstate. unfold load_state. rewrite Hstate.
  change (sample_state !! "servers") with (@None json).
  change (sample_state !! "connect") with (Some (JBool true)).
  change (sample_state !! "host") with (Some (JStr "h")).
  change (sample_state !! "port") with (Some (JInt 1234)).
  change (sample_state !! "remove") with (Some (JStr "/tmp/sample.idb")).
  reflexivity.
Qed.

(** C9 (as amended).  Loading the launch state
    [{connect: true, host: "h", port: 1234, remove: "/tmp/sample.idb"}]
    issues exactly one connect request, to [("h", 1234)], and then walks
    the five siblings [/tmp/sample.id0], [.id1], [.nam], [.til], [.seg] in
    that order, deleting each one that exists.  When every existing
    sibling can be deleted, [load_state] returns normally and none of the
    five is left.  When a deletion fails, the error leaves [load_state]:
    the siblings before it are gone, the later ones are not tried, and the
    connect request has been issued all the same. *)
Theorem load_state_reconnects (self : Core) (files lck : gset string) :
  let fs := {| state_json := Some sample_state;
               present := files; locked := lck |} in
  let r := load_state fs self in
  r.1.2 = network_connect (JStr "h") (JInt 1234) self
  ∧ connect_requests r.1.2
    = connect_requests self ++ [(JStr "h", JInt 1234)]
  ∧ sample_siblings
    = ["/tmp/sample.id0"; "/tmp/sample.id1"; "/tmp/sample.nam";
       "/tmp/sample.til"; "/tmp/sample.seg"]
  ∧ ((∀ p, p ∈ sample_siblings → p ∈ files → p ∉ lck) →
     r.1.1 = None ∧ r.2 = without sample_siblings fs)
  ∧ (∀ pre ext post,
       extensions = pre ++ ext :: post →
       (∀ e, e ∈ pre →
          "/tmp/sample" +:+ e ∈ files → "/tmp/sample" +:+ e ∉ lck) →
       "/tmp/sample" +:+ ext ∈ files →
       "/tmp/sample" +:+ ext ∈ lck →
       r.1.1 = Some (OSError ("/tmp/sample" +:+ ext))
       ∧ r.2 = without (map (String.append "/tmp/sample") pre) fs).
Proof.
  intros fs r. subst r. rewrite load_state_sample_run by reflexivity.
  split; [by destruct (remove_each _ _ _)|].
  split; [by destruct (remove_each _ _ _)|].
  split; [reflexivity|]. split.
  - intros Hok. rewrite remove_each_all; [done|].
    intros ext Hext. apply Hok. unfold sample_siblings.
    apply list_elem_of_fmap. by exists ext.
  - intros pre ext post Hsplit Hok Hin Hlock. rewrite Hsplit.
    by rewrite remove_each_stops.
Qed.

(** C9, at an instance: three of the five siblings exist and can be
    deleted. *)
Lemma load_state_reconnects_witness :
  let r := load_state disk_with_three_siblings (Core_init (view_host [] [])) in
  connect_requests r.1.2 = [(JStr "h", JInt 1234)]
  ∧ r.1.1 = None
  ∧ r.2 = without sample_siblings disk_with_three_siblings.
Proof.
  intros r.
  pose proof (load_state_reconnects (Core_init (view_host [] []))
                (present disk_with_three_siblings) ∅)
    as (_ & Hconn & _ & Hall & _).
  destruct Hall as [Hnone Hdisk]; [set_solver|].
  split; [exact Hconn|]. split; [exact Hnone | exact Hdisk].
Defined.

(** C9 (as stated) fails.  With all five siblings on disk and
    [/tmp/sample.id1] impossible to delete, the error of [os.remove]
    leaves [load_state] and [.nam], [.til] and [.seg] are still there,
    whereas a clean-up that ignores failed deletions would have removed
    them. *)
Lemma failed_deletion_aborts_cleanup :
  let r := load_state disk_with_locked_id1 (Core_init (view_host [] [])) in
  let ignoring :=
    spec_remove_each "/tmp/sample" extensions disk_with_locked_id1 in
  r.1.1 = Some (OSError "/tmp/sample.id1")
  ∧ connect_requests r.1.2 = [(JStr "h", JInt 1234)]
  ∧ map (os_path_exists r.2) sample_siblings
    = [false; true; true; true; true]
  ∧ map (os_path_exists ignoring) sample_siblings
    = [false; true; false; false; false].
Proof. vm_compute. repeat split. Qed.

(** * Further properties of the differencing engine *)

Lemma padded_lookup (P : list slot) (i : nat) (s : slot) :
  P !! i = Some s → padded P i = s.
Proof. intros Hs. unfold padded. by rewrite Hs. Qed.

(** The change set is empty only for identical snapshots: the engine
    never takes two different snapshots for equal. *)
Theorem differ_empty_iff_same (P C : list slot) :
  differ_local_types P C = [] ↔ P = C.
Proof.
  split; [|intros ->; apply differ_local_types_same].
  rewrite differ_local_types_filter. intros Hnil.
  apply map_eq_nil in Hnil.
  assert (∀ i, (i < max (length P) (length C))%nat → ¬ collected P C i)
    as Hnone.
  { intros i Hi Hc.
    assert (i ∈ filter (collected P C) (seq 0 (max (length P) (length C))))
      as Hin.
    { apply list_elem_of_filter. split; [done|].
      apply list_elem_of_In, in_seq. lia. }
    rewrite Hnil in Hin. by apply not_elem_of_nil in Hin. }
  assert (length P = length C) as Hlen.
  { destruct (decide (length P = length C)) as [|Hne]; [done|].
    exfalso. destruct (decide (length P < length C)%nat).
    - apply (Hnone (length P)); [lia|]. left. lia.
    - apply (Hnone (length C)); [lia|]. right; left. lia. }
  apply list_eq. intros i.
  destruct (decide (i < length P)%nat) as [Hi|Hi].
  - destruct (lookup_lt_is_Some_2 P i Hi) as [p Hp].
    destruct (lookup_lt_is_Some_2 C i ltac:(lia)) as [c Hc].
    rewrite Hp, Hc. f_equal.
    destruct (decide (p = c)) as [|Hne]; [done|]. exfalso.
    apply (Hnone i); [lia|]. right; right.
    by rewrite (padded_lookup P i p Hp), (padded_lookup C i c Hc).
  - rewrite !lookup_ge_None_2 by lia. done.
Qed.

(** Whatever the adapter remembered, a type-library notification leaves
    the current snapshot as the remembered one, also when it sends
    nothing; a second notification on an unchanged library sends
    nothing. *)
Theorem local_types_changed_twice (h : Host) (self : IDBHooks) :
  let first := local_types_changed h self in
  let second := local_types_changed h (self_after first) in
  last_local_type (self_after first) = Some (collect_local_types h)
  ∧ sent second = []
  ∧ returned second = Some 0
  ∧ self_after second = self_after first.
Proof.
  intros first second.
  assert (self_after first
          = {| last_local_type := Some (collect_local_types h) |}) as Hfirst.
  { subst first. unfold local_types_changed, compare_local_types.
    destruct (last_local_type self); simpl; [|done].
    destruct (_ && _); [done|]. by destruct (bool_decide _). }
  subst second. rewrite Hfirst.
  unfold local_types_changed, compare_local_types. simpl.
  rewrite differ_local_types_same. done.
Qed.

(** The snapshot holds one slot per ordinal from 1 up to the ordinal
    count (exclusive), and a slot that is not null carries the ordinal of
    its own position: index [i] holds ordinal [i + 1]. *)
Theorem collect_local_types_ordinals (h : Host) :
  length (collect_local_types h) = (get_ordinal_qty h - 1)%nat
  ∧ ∀ (i ordinal : nat) (type fields : string) (name : option string),
      collect_local_types h !! i = Some (Some (ordinal, type, fields, name))
      → ordinal = S i
        ∧ name = get_numbered_type_name h ordinal
        ∧ is_Some (idc_get_local_type_raw h ordinal).
Proof.
  unfold collect_local_types. split.
  - by rewrite length_map, length_seq.
  - intros i ordinal type fields name Hi.
    rewrite list_lookup_fmap in Hi.
    destruct (seq 1 (get_ordinal_qty h - 1) !! i) as [o|] eqn:Ho;
      [|discriminate].
    apply lookup_seq in Ho as [-> _]. simpl in Hi.
    destruct (idc_get_local_type_raw h (S i)) as [[t f]|] eqn:Hraw;
      [|discriminate].
    inversion Hi; subst. rewrite Hraw. eauto.
Qed.

(** The ordinal invariant, at an instance: the library of the examples
    with a gap at ordinal 2. *)
Lemma collect_local_types_ordinals_witness :
  let h := types_host 4 (λ o, bool_decide (o ≠ 2%nat)) in
  (3 = S 2)%nat
  ∧ Some "type_3" = get_numbered_type_name h 3
  ∧ is_Some (idc_get_local_type_raw h 3).
Proof.
  intros h.
  apply (proj2 (collect_local_types_ordinals h) 2%nat 3%nat "=" ""
               (Some "type_3")).
  reflexivity.
Defined.

(** * Further properties of the notification handlers *)

(** For every operand number other than 0 the representation is read
    through [MS_1TYPE], the mask of operand 1: whichever operand changed,
    the kind sent is the kind [op_type_changed] finds for operand 1. *)
Theorem op_type_changed_later_operands (h : Host) (ea n : Z) :
  n ≠ 0 →
  fst <$> classify_op h ea n = fst <$> classify_op h ea 1.
Proof.
  intros Hn. unfold classify_op.
  rewrite (bool_decide_eq_false_2 (n = 0)) by done.
  rewrite (bool_decide_eq_false_2 (1 = 0)) by done.
  repeat (case_bool_decide; [reflexivity|]).
  case_bool_decide.
  { destruct (get_stroff_path h ea n), (get_stroff_path h ea 1).
    reflexivity. }
  case_bool_decide; reflexivity.
Qed.

(** At an instance: a hexadecimal operand 1, notified for operand 2. *)
Lemma op_type_changed_later_operands_witness :
  fst <$> classify_op (flags_host 0x01000000) 0x401000 2
  = fst <$> classify_op (flags_host 0x01000000) 0x401000 1.
Proof.
  apply (op_type_changed_later_operands (flags_host 0x01000000) 0x401000 2).
  discriminate.
Defined.

Lemma split_first_dot_spec (s : string) :
  match split_first_dot s with
  | Some (a, b) => s = a +:+ String "." b ∧ lacks "." a
  | None => lacks "." s
  end.
Proof.
  induction s as [|c s IH]; simpl; [done|].
  destruct (Ascii.eqb_spec c ".") as [->|Hc].
  - split; done.
  - destruct (split_first_dot s) as [[a b]|]; simpl.
    + destruct IH as [-> Ha]. split; done.
    + split; done.
Qed.

(** [struc_cmt_changed] sends exactly one event and returns 0.  The name
    the host reports is cut at its first dot: the structure name sent
    contains no dot, and with the member name after it the reported name
    is recovered; a name without a dot is sent whole, with an empty member
    name. *)
Theorem struc_cmt_changed_splits_name (h : Host) (id : Z) (rptble : bool) :
  ∃ sname smname,
    struc_cmt_changed h id rptble
    = ([StrucCmtChangedEvent sname smname (get_struc_cmt h id rptble) rptble],
       0)
    ∧ lacks "." sname
    ∧ (get_struc_name h id = sname +:+ String "." smname
       ∨ (get_struc_name h id = sname ∧ smname = "")).
Proof.
  unfold struc_cmt_changed.
  pose proof (split_first_dot_spec (get_struc_name h id)) as Hs.
  destruct (split_first_dot (get_struc_name h id)) as [[a b]|].
  - destruct Hs as [Hname Ha]. exists a, b. auto.
  - exists (get_struc_name h id), "". auto.
Qed.

(** * Further properties of the decompiler hooks *)

Lemma callback_keeps_installation (h : Host) (event : Z) (x : HexRaysHooks) :
  let y := self_after (call (_hxe_callback h event) x) in
  _available y = _available x ∧ _installed y = _installed x.
Proof.
  intros y. subst y. rewrite _hxe_callback_run.
  destruct (_installed x) eqn:Hi; simpl; rewrite ?Hi; [|done].
  case_bool_decide; simpl; rewrite ?Hi; [|done].
  destruct (get_func h (get_screen_ea h)) as [func|]; simpl; rewrite ?Hi;
    [|done].
  case_bool_decide; simpl; rewrite ?Hi; done.
Qed.

(** In every state the hooks can reach, the callback is installed only if
    the decompiler was found available. *)
Theorem reachable_installed_implies_available (x : HexRaysHooks) :
  reachable x → installed_implies_available x.
Proof.
  induction 1 as [h | h x _ IH | x _ IH | h event x _ IH].
  - apply init_installed_implies_available.
  - by apply hook_keeps_installed_implies_available.
  - by apply unhook_keeps_installed_implies_available.
  - destruct (callback_keeps_installation h event x) as [Ha Hi].
    unfold installed_implies_available in *. simpl in *.
    rewrite Ha, Hi. exact IH.
Qed.

(** At an instance: hooked, refreshed, unhooked and hooked again. *)
Lemma reachable_installed_implies_available_witness :
  installed_implies_available
    (HexRaysHooks_hook (view_host [] [])
       (HexRaysHooks_unhook viewing_function)).
Proof.
  apply reachable_installed_implies_available.
  apply reachable_hook, reachable_unhook.
  unfold viewing_function.
  apply reachable_callback, reachable_hook, reachable_init.
Defined.

(** The decompiler is probed on the first [hook] only.  Once an answer is
    recorded, [hook] no longer depends on the host; and if that answer was
    "not available", no later [hook] installs the callback, whatever the
    host would answer then. *)
Theorem hook_probes_once (h1 h2 : Host) (x : HexRaysHooks) :
  reachable x →
  (_available x ≠ None → HexRaysHooks_hook h1 x = HexRaysHooks_hook h2 x)
  ∧ (_available x = None → init_hexrays_plugin h1 = false →
     _installed (HexRaysHooks_hook h2 (HexRaysHooks_hook h1 x)) = false
     ∧ _available (HexRaysHooks_hook h2 (HexRaysHooks_hook h1 x))
       = Some false).
Proof.
  intros Hreach.
  apply reachable_installed_implies_available in Hreach.
  unfold installed_implies_available in Hreach. split.
  - intros Hsome. unfold HexRaysHooks_hook.
    destruct (_available x); [reflexivity | done].
  - intros Hnone Hinit. unfold HexRaysHooks_hook.
    rewrite Hnone, Hinit. simpl.
    destruct (_installed x) eqn:Hi; [|done].
    specialize (Hreach eq_refl). congruence.
Qed.

(** At an instance: the decompiler is missing at the first [hook] and
    present at the second. *)
Lemma hook_probes_once_witness :
  let missing := without_decompiler (view_host [] []) in
  let x := HexRaysHooks_hook (view_host [] [])
             (HexRaysHooks_hook missing (HexRaysHooks_init missing)) in
  _installed x = false ∧ _available x = Some false.
Proof.
  intros missing x.
  apply (proj2 (hook_probes_once missing (view_host [] [])
                  (HexRaysHooks_init missing) (reachable_init missing)));
    reflexivity.
Defined.

Lemma synced_refresh_events (h : Host) (ea : Z) (s : HexRaysHooks) :
  refresh_events h ea (synced h ea s) = []
  ∧ synced h ea (synced h ea s) = synced h ea s.
Proof.
  split; [|reflexivity].
  unfold refresh_events, synced. simpl. by rewrite !emitted_if_same.
Qed.

(** A notification repeated while the host is unchanged sends nothing the
    second time and leaves the caches as the first left them, whatever
    the event and whatever the hooks held before. *)
Theorem callback_twice (h : Host) (event : Z) (x : HexRaysHooks) :
  let first := call (_hxe_callback h event) x in
  let second := call (_hxe_callback h event) (self_after first) in
  sent second = []
  ∧ returned second = returned first
  ∧ self_after second = self_after first.
Proof.
  intros first second. subst second first.
  rewrite (_hxe_callback_run h event x).
  destruct (_installed x) eqn:Hi; simpl.
  2:{ rewrite _hxe_callback_run, Hi. done. }
  case_bool_decide as He; simpl.
  2:{ rewrite _hxe_callback_run, Hi. simpl.
      by rewrite bool_decide_eq_false_2. }
  destruct (get_func h (get_screen_ea h)) as [func|] eqn:Hf; simpl.
  2:{ rewrite _hxe_callback_run, Hi. simpl.
      by rewrite bool_decide_eq_true_2, Hf. }
  set (s := if bool_decide (_func_ea x ≠ start_ea func)
            then rebind h func x else x).
  assert (_func_ea s = start_ea func ∧ _installed s = true) as [Hea His].
  { subst s. case_bool_decide as Hne; simpl; [done|].
    split; [|done]. by destruct (decide (_func_ea x = start_ea func)). }
  rewrite _hxe_callback_run. simpl. rewrite His. simpl.
  rewrite bool_decide_eq_true_2, Hf by done. simpl.
  rewrite Hea, bool_decide_eq_false_2 by (intros Hne; by apply Hne).
  destruct (synced_refresh_events h (start_ea func) s) as [-> ->]. done.
Qed.

(** After [closebase] the decompiler callback is inert: whatever the host
    notifies, it sends nothing, returns 0 and changes nothing. *)
Theorem callback_inert_after_closebase (h : Host) (event : Z) (core : Core) :
  installed_implies_available (_hxeHooks core) →
  let hooks := _hxeHooks (closebase core).1 in
  call (_hxe_callback h event) hooks = Outcome (Some 0) [] hooks.
Proof.
  intros Hwf hooks. rewrite _hxe_callback_run.
  assert (_installed hooks = false) as ->; [|done].
  subst hooks. unfold closebase. simpl. by apply unhook_uninstalls.
Qed.

(** At an instance: the subscribed session of the examples is closed and
    the decompiler refreshes a function with a new comment. *)
Lemma callback_inert_after_closebase_witness :
  let h := view_host [] [((0x401010, 70), "checked")] in
  let hooks := _hxeHooks (closebase subscribed_core).1 in
  call (_hxe_callback h 5) hooks = Outcome (Some 0) [] hooks.
Proof.
  intros h hooks.
  apply (callback_inert_after_closebase h 5 subscribed_core).
  intros _. reflexivity.
Defined.

(** [_hxe_callback] hands [None] instead of 0 to the host exactly when
    it is installed, the event is a function refresh and the cursor is
    outside every function; it then sends nothing and changes nothing. *)
Theorem callback_returns_none_iff (h : Host) (event : Z) (x : HexRaysHooks) :
  let o := call (_hxe_callback h event) x in
  (returned o = None
   ↔ _installed x = true ∧ event = hxe_func_printed h
     ∧ get_func h (get_screen_ea h) = None)
  ∧ (returned o = None ∨ returned o = Some 0)
  ∧ (returned o = None → sent o = [] ∧ self_after o = x).
Proof.
  intros o. subst o. rewrite _hxe_callback_run.
  destruct (_installed x); simpl.
  2:{ split; [|split]; [split | by right |]; [done | | done].
      intros (? & _); done. }
  case_bool_decide as He; simpl.
  2:{ split; [|split]; [split | by right |]; [done | | done].
      intros (_ & ? & _); done. }
  destruct (get_func h (get_screen_ea h)) as [func|]; simpl.
  - split; [|split]; [split | by right |]; [done | | done].
    intros (_ & _ & ?); done.
  - split; [|split]; [split | by left |]; done.
Qed.

(** * Further properties of the session state manager *)

Lemma decimal_int_str (z : Z) : decimal_int (str z) = Some z.
Proof.
  unfold decimal_int, str. rewrite NilZero.isi.
  - simpl. by rewrite DecimalZ.of_to.
  - destruct z; simpl; [discriminate | | discriminate].
    intros [= Hnil]. by apply Unsigned.to_uint_nonnil in Hnil.
  - destruct z; simpl; [discriminate | discriminate |].
    intros [= Hnil]. by apply Unsigned.to_uint_nonnil in Hnil.
Qed.

Lemma str_nonempty (z : Z) : str z ≠ "".
Proof.
  intros Hempty. pose proof (decimal_int_str z) as Hz.
  rewrite Hempty in Hz. discriminate.
Qed.

Lemma with_identity_same (c : Core) :
  with_identity (_repo c) (_branch c) (_tick c) (ticks c) c = c.
Proof. by destruct c. Qed.

Lemma save_netnode_in_sync (c : Core) : in_sync (save_netnode c).
Proof.
  unfold in_sync, save_netnode. simpl.
  rewrite !lookup_insert. repeat case_decide; done.
Qed.

Lemma closebase_in_sync (c : Core) : in_sync (closebase c).1.
Proof.
  unfold closebase, set_ticks, in_sync. simpl. rewrite !lookup_insert.
  repeat case_decide; done.
Qed.

(** Every write to the identity is persisted at once: after each of the
    three setters, and after [closebase], the store holds exactly the
    repository, the branch and the tick the module holds in memory; a
    "connected" notification does not disturb that. *)
Theorem identity_store_in_sync :
  (∀ hash c, in_sync (set_repo hash c))
  ∧ (∀ uuid c, in_sync (set_branch uuid c))
  ∧ (∀ tick c, in_sync (set_tick tick c))
  ∧ (∀ c, in_sync (closebase c).1)
  ∧ (∀ h c, in_sync c ↔ in_sync (notify_connected h c)).
Proof.
  split; [|split; [|split; [|split]]].
  - intros. apply save_netnode_in_sync.
  - intros. apply save_netnode_in_sync.
  - intros. apply save_netnode_in_sync.
  - apply closebase_in_sync.
  - intros h c. unfold notify_connected.
    destruct (_ && _); [|done]. done.
Qed.

Lemma load_netnode_in_sync (int : string → option Z) (c : Core) :
  (∀ z, int (str z) = Some z) → in_sync c → load_netnode int c = Returned c.
Proof.
  intros Hint (Hrepo & Hbranch & Htick).
  unfold load_netnode, hashval. rewrite Hrepo, Hbranch, Htick. simpl.
  rewrite bool_decide_eq_false_2 by apply str_nonempty.
  rewrite Hint. f_equal. by destruct c.
Qed.

(** Saving then loading is the identity: when the store is in sync with
    the module, [load_netnode] returns normally and changes nothing.  In
    particular a tick set to [N] is read back as [N]. *)
Theorem load_netnode_round_trip (int : string → option Z) (c : Core) :
  (∀ z, int (str z) = Some z) →
  in_sync c →
  load_netnode int c = Returned c
  ∧ ∀ N, load_netnode int (set_tick N c) = Returned (set_tick N c)
         ∧ _tick (set_tick N c) = N.
Proof.
  intros Hint Hsync. split; [by apply load_netnode_in_sync|].
  intros N. split; [|done].
  apply load_netnode_in_sync; [done | apply save_netnode_in_sync].
Qed.

(** At an instance: the subscribed session of the examples. *)
Lemma load_netnode_round_trip_witness :
  load_netnode decimal_int subscribed_core = Returned subscribed_core.
Proof.
  apply (load_netnode_round_trip decimal_int subscribed_core).
  - apply decimal_int_str.
  - repeat split; reflexivity.
Defined.

(** A store without the three keys (a database that was never bound), or
    holding [None] or the empty string under them, loads as the unbound
    identity: no repository, no branch, tick 0; nothing is raised. *)
Theorem load_netnode_missing_keys (int : string → option Z) (c : Core) :
  int "0" = Some 0 →
  hashval (netnode c) "hash" = None →
  hashval (netnode c) "uuid" = None →
  hashval (netnode c) "tick" = None ∨ hashval (netnode c) "tick" = Some "" →
  load_netnode int c = Returned (with_identity None None 0 (ticks c) c).
Proof.
  intros Hzero Hh Hu Ht. unfold load_netnode. rewrite Hh, Hu.
  destruct Ht as [-> | ->]; simpl; by rewrite Hzero.
Qed.

(** At an instance: the freshly created module on an empty store. *)
Lemma load_netnode_missing_keys_witness :
  let c := Core_init (view_host [] []) in
  load_netnode decimal_int c = Returned (with_identity None None 0 (ticks c) c).
Proof.
  intros c. apply (load_netnode_missing_keys decimal_int c);
    [reflexivity | reflexivity | reflexivity | left; reflexivity].
Defined.

(** When the stored tick is not a number, [load_netnode] raises after it
    has already replaced the repository and the branch in memory; the
    tick in memory keeps its old value. *)
Theorem load_netnode_bad_tick (int : string → option Z) (c : Core) (s : string) :
  hashval (netnode c) "tick" = Some s →
  s ≠ "" →
  int s = None →
  load_netnode int c
  = ValueError (with_identity (hashval (netnode c) "hash")
                              (hashval (netnode c) "uuid")
                              (_tick c) (ticks c) c).
Proof.
  intros Ht Hs Hint. unfold load_netnode. rewrite Ht.
  rewrite bool_decide_eq_false_2 by done. by rewrite Hint.
Qed.

(** At an instance: a store whose tick entry is not a number. *)
Lemma load_netnode_bad_tick_witness :
  let c := with_netnode (<["tick" := Some "soon"]> (<["hash" := Some "r"]> ∅))
                        (Core_init (view_host [] [])) in
  load_netnode decimal_int c
  = ValueError (with_identity (Some "r") None 0 None c).
Proof.
  intros c.
  apply (load_netnode_bad_tick decimal_int c "soon");
    [reflexivity | discriminate | reflexivity].
Defined.

(** When the host is ready and the store is in sync with the module,
    [ready_to_run] subscribes exactly when the module is bound: it then
    sends one [Subscribe] carrying the stored repository, branch and tick
    and activates the hooks; otherwise it sends nothing and leaves the
    hooks alone. *)
Theorem ready_to_run_subscribes_iff_bound
    (int : string → option Z) (h : Host) (c : Core) :
  (∀ z, int (str z) = Some z) →
  in_sync c →
  (bound c →
   ∃ repo branch,
     netnode c !! "hash" = Some (Some repo)
     ∧ netnode c !! "uuid" = Some (Some branch)
     ∧ ready_to_run int h c
       = Returned (hook_all h (send_packet (Subscribe repo branch (_tick c)) c)))
  ∧ (¬ bound c → ready_to_run int h c = Returned c).
Proof.
  intros Hint Hsync. unfold ready_to_run, bound.
  rewrite load_netnode_in_sync by done.
  destruct Hsync as (Hrepo & Hbranch & _). split.
  - intros [Hr Hb]. rewrite Hr, Hb. simpl.
    destruct (_repo c) as [repo|]; [|done].
    destruct (_branch c) as [branch|]; [|done].
    exists repo, branch. done.
  - intros Hnot. destruct (truthy_str (_repo c)); [|done].
    destruct (truthy_str (_branch c)); [|done]. by destruct Hnot.
Qed.

(** At an instance: a database bound through the setters is reopened. *)
Lemma ready_to_run_subscribes_iff_bound_witness :
  let h := view_host [] [] in
  let c := set_tick 5 (set_branch (Some "b") (set_repo (Some "r")
                                                       (Core_init h))) in
  ∃ repo branch,
    netnode c !! "hash" = Some (Some repo)
    ∧ netnode c !! "uuid" = Some (Some branch)
    ∧ ready_to_run decimal_int h c
      = Returned (hook_all h (send_packet (Subscribe repo branch (_tick c)) c)).
Proof.
  intros h c.
  apply (proj1 (ready_to_run_subscribes_iff_bound decimal_int h c
                  decimal_int_str (save_netnode_in_sync _))).
  split; reflexivity.
Defined.

(** Closing the database unbinds the module for good: afterwards neither
    a "connected" notification nor [ready_to_run] (which reloads the
    identity from the store) sends a [Subscribe] or activates a hook. *)
Theorem nothing_resubscribes_after_closebase
    (int : string → option Z) (h : Host) (c : Core) :
  (∀ z, int (str z) = Some z) →
  let closed := (closebase c).1 in
  notify_connected h closed = closed
  ∧ ready_to_run int h closed = Returned closed.
Proof.
  intros Hint closed. split; [reflexivity|].
  unfold ready_to_run. subst closed.
  rewrite load_netnode_in_sync by (done || apply closebase_in_sync).
  reflexivity.
Qed.

(** At an instance: the subscribed session of the examples is closed. *)
Lemma nothing_resubscribes_after_closebase_witness :
  let closed := (closebase subscribed_core).1 in
  notify_connected (view_host [] []) closed = closed
  ∧ ready_to_run decimal_int (view_host [] []) closed = Returned closed.
Proof.
  apply (nothing_resubscribes_after_closebase decimal_int (view_host [] [])
           subscribed_core decimal_int_str).
Defined.

(** * Further properties of the launch state *)

Lemma remove_each_effect (idbFile : string) (exts : list string)
    (fs : filesystem) :
  let r := remove_each idbFile exts fs in
  state_json r.2 = state_json fs
  ∧ locked r.2 = locked fs
  ∧ present r.2 ⊆ present fs
  ∧ ∀ p, p ∈ present fs → p ∉ present r.2 →
         ∃ ext, ext ∈ exts ∧ p = idbFile +:+ ext ∧ p ∉ locked fs.
Proof.
  revert fs. induction exts as [|ext exts IH]; intros fs; simpl.
  { repeat split; [done|]. intros p Hin Hout. done. }
  unfold os_path_exists, os_remove.
  destruct (bool_decide_reflect (idbFile +:+ ext ∈ present fs)) as [Hin|Hout];
    simpl.
  - destruct (bool_decide_reflect (idbFile +:+ ext ∈ locked fs)) as [Hl|Hl];
      simpl.
    { repeat split; [done|]. intros p Hp Hnp. done. }
    specialize (IH {| state_json := state_json fs;
                      present := present fs ∖ {[idbFile +:+ ext]};
                      locked := locked fs |}).
    simpl in IH. destruct IH as (Hs & Hlk & Hsub & Hrem).
    split; [done|]. split; [done|]. split; [set_solver|].
    intros p Hp Hnp.
    destruct (decide (p = idbFile +:+ ext)) as [->|Hne].
    + exists ext. split; [by left | done].
    + destruct (Hrem p) as (e & He & Hpe & Hpl); [set_solver | done |].
      exists e. split; [by right | done].
  - destruct (IH fs) as (Hs & Hlk & Hsub & Hrem).
    split; [done|]. split; [done|]. split; [done|].
    intros p Hp Hnp. destruct (Hrem p Hp Hnp) as (e & He & Hpe & Hpl).
    exists e. split; [by right | done].
Qed.

(** Whatever the state file holds, [load_state] creates no file, leaves
    the state file alone, and deletes nothing but siblings of the path
    under ["remove"]: a file that disappears is that path's stem followed
    by one of the five extensions, and the state asked for a reconnect. *)
Theorem load_state_deletes_only_siblings (fs : filesystem) (self : Core) :
  let r := load_state fs self in
  state_json r.2 = state_json fs
  ∧ locked r.2 = locked fs
  ∧ present r.2 ⊆ present fs
  ∧ ∀ p, p ∈ present fs → p ∉ present r.2 →
         ∃ state remove ext,
           state_json fs = Some state
           ∧ from_option truthy false (state !! "connect") = true
           ∧ state !! "remove" = Some (JStr remove)
           ∧ ext ∈ extensions
           ∧ p = (splitext remove).1 +:+ ext.
Proof.
  intros r. subst r. unfold load_state.
  destruct (state_json fs) as [state|] eqn:Hstate; [|by repeat split].
  destruct (match state !! "servers" with
            | Some v => _
            | None => _
            end) as [e|self']; [by repeat split|].
  destruct (from_option truthy false (state !! "connect")) eqn:Hconn;
    [|by repeat split].
  destruct (state !! "remove") as [[| | |remove|]|] eqn:Hrem;
    try by repeat split.
  destruct (splitext remove) as [idbFile idbExt] eqn:Hsplit.
  pose proof (remove_each_effect idbFile extensions fs) as Heff.
  destruct (remove_each idbFile extensions fs) as [e fs']. simpl in *.
  destruct Heff as (Hs & Hl & Hsub & Hgone).
  split; [congruence|]. split; [done|]. split; [done|].
  intros p Hp Hnp. destruct (Hgone p Hp Hnp) as (ext & Hext & Hpe & _).
  exists state, remove, ext. rewrite Hsplit. done.
Qed.

(** Without a state file, or when its ["connect"] entry is missing, null,
    false, 0 or empty, [load_state] issues no connect request and leaves
    the disk as it is. *)
Theorem load_state_without_connect (fs : filesystem) (self : Core) :
  match state_json fs with
  | Some state => from_option truthy false (state !! "connect") = false
  | None => True
  end →
  let r := load_state fs self in
  connect_requests r.1.2 = connect_requests self ∧ r.2 = fs.
Proof.
  intros Hconn r. subst r. unfold load_state.
  destruct (state_json fs) as [state|]; [|done].
  rewrite Hconn.
  destruct (state !! "servers") as [v|]; [|done].
  by destruct (load_servers v).
Qed.

(** At an instance: no state file at all. *)
Lemma load_state_without_connect_witness :
  let self := Core_init (view_host [] []) in
  let r := load_state empty_disk self in
  connect_requests r.1.2 = connect_requests self ∧ r.2 = empty_disk.
Proof.
  intros self.
  apply (load_state_without_connect empty_disk self). exact I.
Defined.

Lemma load_servers_saved (servers : list (json * json)) :
  load_servers (JList (map (λ s : json * json, JList [s.1; s.2]) servers))
  = inr servers.
Proof.
  unfold load_servers.
  assert (mapM unpack_server
            (map (λ s : json * json, JList [s.1; s.2]) servers)
          = Some servers) as ->; [|done].
  induction servers as [|[host port] servers IH]; [done|].
  simpl. rewrite IH. done.
Qed.

Lemma saved_state_offline (net : network_t) (self : Core) :
  let state := saved_state net None self in
  state !! "servers"
  = Some (JList (map (λ s : json * json, JList [s.1; s.2]) (_servers self)))
  ∧ state !! "connect" = Some JNull.
Proof. simpl. unfold saved_state. simpl. by simplify_map_eq. Qed.

(** The state written without a database path, as the [servers] setter
    and [_uninstall] write it, restores the server list on the next
    [load_state] and does nothing else: no connect request, no deletion,
    no error. *)
Theorem save_state_load_state_round_trip
    (net : network_t) (saver self : Core) (fs : filesystem) :
  let fs' := save_state net None saver fs in
  load_state fs' self = (None, with_servers (_servers saver) self, fs')
  ∧ (∀ servers,
       (set_servers net servers saver fs).2
       = save_state net None (with_servers servers saver) fs
       ∧ _servers (set_servers net servers saver fs).1 = servers)
  ∧ (∀ m, (_uninstall net m fs).2
          = save_state net None (unhook_all (core m)) fs).
Proof.
  intros fs'. split; [|by split].
  unfold load_state. subst fs'. simpl.
  destruct (saved_state_offline net saver) as [-> ->].
  rewrite load_servers_saved. reflexivity.
Qed.

(** [_uninstall] followed by [_install]: the module comes back with its
    server list, its own two hooks active and the adapter hooks created
    afresh and inactive; no connect request is made and no file is
    touched. *)
Theorem uninstall_then_install
    (net : network_t) (h : Host) (m : CoreModule) (fs : filesystem) :
  let stopped := _uninstall net m fs in
  let r := _install h stopped.1 stopped.2 in
  r.1.1 = None
  ∧ _servers (core r.1.2) = _servers (core m)
  ∧ connect_requests (core r.1.2) = connect_requests (core m)
  ∧ sent_packets (core r.1.2) = sent_packets (core m)
  ∧ uiHooksCore_hooked r.1.2 = true
  ∧ idbHooksCore_hooked r.1.2 = true
  ∧ idb_hooked (core r.1.2) = false
  ∧ idp_hooked (core r.1.2) = false
  ∧ _hxeHooks (core r.1.2) = HexRaysHooks_init h
  ∧ present r.2 = present fs
  ∧ locked r.2 = locked fs.
Proof.
  intros stopped r. subst r stopped. unfold _install, _uninstall. simpl.
  unfold load_state. simpl.
  destruct (saved_state_offline net (unhook_all (core m))) as [-> ->].
  rewrite load_servers_saved. simpl. repeat split.
Qed.

Lemma saved_state_online (net : network_t) (p : string) (self : Core) :
  connected net = true → p ≠ "" →
  let state := saved_state net (Some p) self in
  state !! "servers"
  = Some (JList (map (λ s : json * json, JList [s.1; s.2]) (_servers self)))
  ∧ state !! "connect" = Some (JBool true)
  ∧ state !! "host" = Some (network_host net)
  ∧ state !! "port" = Some (network_port net)
  ∧ state !! "remove" = Some (JStr p).
Proof.
  intros Hc Hp. simpl. unfold saved_state.
  rewrite bool_decide_eq_false_2, Hc by done. simpl. by simplify_map_eq.
Qed.

Lemma load_state_reconnect_run
    (fs : filesystem) (self : Core) (state : gmap string json)
    (servers : list (json * json)) (v host port : json) (remove : string) :
  state_json fs = Some state →
  state !! "servers" = Some v →
  load_servers v = inr servers →
  state !! "connect" = Some (JBool true) →
  state !! "host" = Some host →
  state !! "port" = Some port →
  state !! "remove" = Some (JStr remove) →
  load_state fs self
  = let '(e, fs') := remove_each (splitext remove).1 extensions fs in
    (e, network_connect host port (with_servers servers self), fs').
Proof.
  intros Hstate Hservers Hload Hconnect Hhost Hport Hremove.
  unfold load_state.
  rewrite Hstate, Hservers, Hload, Hconnect, Hhost, Hport, Hremove.
  by destruct (splitext remove).
Qed.

(** The state written with a database path while the network is connected
    makes the next [load_state] reconnect to the host and port recorded
    and clean up the siblings of that path: one connect request, the
    server list restored and, when none of the existing siblings is
    locked, the five siblings gone and no error. *)
Theorem save_state_then_reconnect
    (net : network_t) (p : string) (saver self : Core) (fs : filesystem) :
  connected net = true →
  p ≠ "" →
  (∀ ext, ext ∈ extensions →
     (splitext p).1 +:+ ext ∈ present fs →
     (splitext p).1 +:+ ext ∉ locked fs) →
  let fs' := save_state net (Some p) saver fs in
  let r := load_state fs' self in
  r.1.1 = None
  ∧ r.1.2 = network_connect (network_host net) (network_port net)
              (with_servers (_servers saver) self)
  ∧ r.2 = without (map (String.append (splitext p).1) extensions) fs'.
Proof.
  intros Hc Hp Hok fs' r. subst r.
  destruct (saved_state_online net p saver Hc Hp)
    as (Hservers & Hconnect & Hhost & Hport & Hremove).
  rewrite (load_state_reconnect_run fs' self _ _ _ _ _ p eq_refl Hservers
             (load_servers_saved _) Hconnect Hhost Hport Hremove).
  rewrite remove_each_all by exact Hok. done.
Qed.

(** At an instance: the database [/tmp/copy.idb] is saved while connected
    to the relay, with two of its siblings on disk. *)
Lemma save_state_then_reconnect_witness :
  let fs := {| state_json := None;
               present := list_to_set ["/tmp/copy.idb"; "/tmp/copy.id0";
                                       "/tmp/copy.nam"];
               locked := ∅ |} in
  let self := Core_init (view_host [] []) in
  let r := load_state (save_state online (Some "/tmp/copy.idb") self fs) self in
  r.1.1 = None
  ∧ connect_requests r.1.2 = [(JStr "relay.example", JInt 31013)]
  ∧ map (os_path_exists r.2)
        ["/tmp/copy.idb"; "/tmp/copy.id0"; "/tmp/copy.nam"]
    = [true; false; false].
Proof.
  intros fs self r.
  destruct (save_state_then_reconnect online "/tmp/copy.idb" self self fs)
    as (He & Hc & Hfs); [reflexivity | discriminate | set_solver |].
  fold r in He, Hc, Hfs.
  split; [exact He|]. split; [by rewrite Hc|]. rewrite Hfs. by vm_compute.
Defined.

(** * Properties of the cursor hooks *)

Lemma first_near_spec (painter : Painter) (ea : Z) (items : list (string * Z)) :
  match first_near painter ea items with
  | Some name =>
      ∃ before address after,
        items = before ++ (name, address) :: after
        ∧ near painter ea address
        ∧ ∀ n a, (n, a) ∈ before → ¬ near painter ea a
  | None => ∀ n a, (n, a) ∈ items → ¬ near painter ea a
  end.
Proof.
  induction items as [|[name address] items IH]; simpl.
  { intros n a Hin. by apply not_elem_of_nil in Hin. }
  destruct (decide (near painter ea address)) as [Hnear|Hfar].
  - exists [], address, items. split; [done|]. split; [done|].
    intros n a Hin. by apply not_elem_of_nil in Hin.
  - destruct (first_near painter ea items) as [found|].
    + destruct IH as (before & a' & after & -> & Hn & Hbefore).
      exists ((name, address) :: before), a', after.
      split; [done|]. split; [done|].
      intros n a [[= -> ->]|Hin]%elem_of_cons; [done | by eapply Hbefore].
    + intros n a [[= -> ->]|Hin]%elem_of_cons; [done | by eapply IH].
Qed.

(** [get_ea_hint] names a user only when the network is connected and
    that user's cursor lies within [4 * nbytes] of the address; the user
    named is the first such user in the painter's order; and no hint is
    given exactly when the network is down or no cursor is that near. *)
Theorem get_ea_hint_names_a_near_user
    (is_connected : bool) (painter : Painter) (ea : Z) :
  (∀ name,
     get_ea_hint is_connected painter ea = Some name →
     is_connected = true
     ∧ ∃ before address after,
         users_positions painter = before ++ (name, address) :: after
         ∧ (address - nbytes painter * 4 ≤ ea)%Z
         ∧ (ea ≤ address + nbytes painter * 4)%Z
         ∧ ∀ n a, (n, a) ∈ before → ¬ near painter ea a)
  ∧ (get_ea_hint is_connected painter ea = None
     ↔ is_connected = false
       ∨ ∀ n a, (n, a) ∈ users_positions painter → ¬ near painter ea a).
Proof.
  unfold get_ea_hint.
  pose proof (first_near_spec painter ea (users_positions painter)) as Hs.
  destruct is_connected.
  - destruct (first_near painter ea (users_positions painter)) as [found|].
    + destruct Hs as (before & address & after & Hitems & [Hlo Hhi] & Hb).
      split.
      * intros name [= <-]. split; [done|].
        exists before, address, after. done.
      * split; [done|]. intros [?|Hnone]; [done|]. exfalso.
        apply (Hnone found address); [|done].
        rewrite Hitems. apply elem_of_app. right. by left.
    + split; [done|]. split; [by right | done].
  - split; [done|]. split; [by left | done].
Qed.

Section saving.
Context (painter : Painter).
Implicit Types (items : list (string * Z)) (self : UIHooks).

Lemma saving_over_app items1 items2 self :
  fold_left (remember painter) (items1 ++ items2) self
  = fold_left (remember painter) items2 (fold_left (remember painter) items1 self).
Proof. apply fold_left_app. Qed.

Lemma saving_over_other items self color :
  (∀ item, item ∈ items → colour_of painter item ≠ color) →
  _state (fold_left (remember painter) items self) !! color = _state self !! color.
Proof.
  revert self. induction items as [|item items IH]; intros self Hother;
    [done|].
  simpl. rewrite IH by (intros i Hi; apply Hother; by right).
  simpl. apply lookup_insert_ne. apply (Hother item). by left.
Qed.

Lemma saving_over_entries items self color address :
  _state (fold_left (remember painter) items self) !! color = Some address →
  _state self !! color = Some address
  ∨ (clear_database painter address = color
     ∧ ∃ name, (name, address) ∈ items).
Proof.
  revert self. induction items as [|[name a] items IH]; intros self Hin;
    [by left|].
  simpl in Hin. apply IH in Hin as [Hin | (Hc & n & Hn)].
  - simpl in Hin. destruct (decide (clear_database painter a = color)) as [Heq|Hne].
    + rewrite Heq, lookup_insert_eq in Hin. inversion Hin; subst.
      right. split; [done|]. exists name. by left.
    + rewrite lookup_insert_ne in Hin by done. by left.
  - right. split; [done|]. exists n. by right.
Qed.

Lemma saving_over_dom items self :
  dom (_state (fold_left (remember painter) items self))
  = dom (_state self) ∪ list_to_set (map (colour_of painter) items).
Proof.
  revert self. induction items as [|item items IH]; intros self; simpl.
  - set_solver.
  - rewrite IH. simpl. rewrite dom_insert_L. unfold colour_of. set_solver.
Qed.

Lemma size_list_to_set_le (l : list Z) :
  (size (list_to_set l : gset Z) ≤ length l)%nat.
Proof.
  induction l as [|x l IH].
  - by rewrite list_to_set_nil, size_empty.
  - rewrite list_to_set_cons, size_union_alt, size_singleton. simpl length.
    assert (size ((list_to_set l : gset Z) ∖ {[x]}) ≤ size (list_to_set l : gset Z))%nat
      by (apply subseteq_size; set_solver).
    lia.
Qed.

End saving.

(** After [saving] on a fresh [UIHooks], [saved] repaints one address per
    colour found, not one per user: every repainted address is a cursor
    that was cleared, with the colour found under it, and the number of
    repaint calls is the number of distinct colours, which the number of
    cleared cursors bounds. *)
Theorem saved_repaints_one_address_per_colour (painter : Painter) :
  let repaints := saved (saving painter UIHooks_init) in
  (∀ color address,
     (color, address) ∈ repaints →
     clear_database painter address = color
     ∧ ∃ name, (name, address) ∈ users_positions painter)
  ∧ length repaints
    = size (list_to_set (map (colour_of painter) (users_positions painter))
            : gset Z)
  ∧ (length repaints ≤ length (users_positions painter))%nat.
Proof.
  intros repaints. subst repaints. unfold saved, saving.
  assert (length (map_to_list
            (_state (fold_left (remember painter) (users_positions painter)
                               UIHooks_init)))
          = size (list_to_set
                    (map (colour_of painter) (users_positions painter))
                  : gset Z)) as Hcount.
  { rewrite length_map_to_list, <- size_dom, saving_over_dom. simpl.
    rewrite dom_empty_L. f_equal. set_solver. }
  split; [|split; [exact Hcount|]].
  - intros color address Hin. apply elem_of_map_to_list in Hin.
    apply saving_over_entries in Hin as [Hin|Hin]; [|done].
    simpl in Hin. by rewrite lookup_empty in Hin.
  - rewrite Hcount.
    etransitivity; [apply size_list_to_set_le|]. by rewrite length_map.
Qed.

(** [saving] never forgets and the last cursor of a colour wins: an entry
    remembered earlier stays when no cursor has its colour now (so [saved]
    repaints it again), and of the cursors that share a colour only the
    last one in the painter's order is remembered. *)
Theorem saving_keeps_and_overwrites (painter : Painter) (self : UIHooks) :
  (∀ color address,
     _state self !! color = Some address →
     (∀ user, user ∈ users_positions painter →
              colour_of painter user ≠ color) →
     _state (saving painter self) !! color = Some address)
  ∧ (∀ before name address after,
       users_positions painter = before ++ (name, address) :: after →
       (∀ user, user ∈ after →
                colour_of painter user ≠ clear_database painter address) →
       _state (saving painter self) !! clear_database painter address
       = Some address).
Proof.
  unfold saving. split.
  - intros color address Hin Hother. by rewrite saving_over_other.
  - intros before name address after -> Hafter.
    rewrite saving_over_app. simpl.
    rewrite saving_over_other by done. simpl. apply lookup_insert_eq.
Qed.

(** At an instance: ann and bob had the same colour under their cursors;
    three cursors are cleared, two addresses are repainted, and ann's is
    not one of them. *)
Lemma saving_keeps_and_overwrites_witness :
  let self := saving crowded_painter UIHooks_init in
  _state self !! 0xFFFFFF = Some 0x402000
  ∧ length (saved self) = 2%nat.
Proof.
  intros self. split.
  - apply (proj2 (saving_keeps_and_overwrites crowded_painter UIHooks_init)
             [("ann", 0x401000)] "bob" 0x402000 [("eve", 0x403000)]);
      [reflexivity|].
    intros user ->%list_elem_of_singleton. discriminate.
  - by vm_compute.
Defined.

